(** * deafrica-scripts: the Landsat gap report and the CHIRPS downloader

    A shallow embedding of [deafrica/monitoring/landsat_gap_report.py] and
    [deafrica/data/chirps.py], and the properties their specification states
    about them.

    Conventions.
    - A Python [str] is a [string]; the field values, keys and names the two
      scripts handle are ASCII, so Python's [len], [upper], [lower] and [int]
      are modelled on 8-bit characters.
    - A Python [set] of strings is a [gset string]; iterating over it is
      [elements], whose order is as arbitrary as Python's, so properties of
      the lists built from a set are stated up to permutation.
    - A call that may raise returns a [result]; the calls to S3 and Slack are
      recorded as a list of events, in the order the code makes them.
    - Logging is not modelled. *)

From stdpp Require Import gmap strings list fin_maps pretty.
From Stdlib Require Import ZArith Ascii String.



(** ** Exceptions and results *)

Inductive exn : Type :=
  | KeyError (key : string)
  | AttributeError
  | TypeError
  | ValueError
  | Exception (msg : string).

Inductive result (A : Type) : Type :=
  | Ok (a : A)
  | Raise (e : exn).
Arguments Ok {A} a.
Arguments Raise {A} e.

Definition bind {A B : Type} (m : result A) (k : A → result B) : result B :=
  match m with
  | Ok a => k a
  | Raise e => Raise e
  end.

Notation "x ←! m ; k" := (bind m (λ x, k))
  (at level 20, m at level 100, k at level 200, right associativity,
   format "x  ←!  m ;  '/' k").

Definition raises {A : Type} (m : result A) : Prop := ∃ e, m = Raise e.

(** ** Python string operations *)

Module PyStr.

(** The newline character; it cannot be written inside a literal. *)
Definition nl : string := String (ascii_of_nat 10) "".

Definition between (lo hi : nat) (c : ascii) : bool :=
  let n := nat_of_ascii c in ((lo <=? n) && (n <=? hi))%nat.

Definition upper_ascii (c : ascii) : ascii :=
  if between 97 122 c then ascii_of_nat (nat_of_ascii c - 32) else c.

Definition lower_ascii (c : ascii) : ascii :=
  if between 65 90 c then ascii_of_nat (nat_of_ascii c + 32) else c.

Fixpoint map_chars (f : ascii → ascii) (s : string) : string :=
  match s with
  | EmptyString => EmptyString
  | String c s' => String (f c) (map_chars f s')
  end.

(** [s.upper()] and [s.lower()] *)
Definition upper : string → string := map_chars upper_ascii.
Definition lower : string → string := map_chars lower_ascii.

(** [s.replace(a, b)] for one-character [a] and [b] *)
Definition replace_char (a b : ascii) : string → string :=
  map_chars (λ c, if Ascii.eqb c a then b else c).

Fixpoint zeros (n : nat) : string :=
  match n with
  | O => ""
  | S n' => String "0"%char (zeros n')
  end.

(** [s.zfill(width)]: zeros are added on the left, after a leading sign,
    until the string has [width] characters; a string that is already that
    long is returned as it is. *)
Definition zfill (width : nat) (s : string) : string :=
  let n := String.length s in
  if (width <=? n)%nat then s
  else
    match s with
    | String c s' =>
        if Ascii.eqb c "+"%char || Ascii.eqb c "-"%char
        then String c (zeros (width - n) +:+ s')
        else zeros (width - n) +:+ s
    | EmptyString => zeros (width - n)
    end.

(** ASCII white space, as [int] skips it. *)
Definition is_space (c : ascii) : bool :=
  let n := nat_of_ascii c in (((9 <=? n) && (n <=? 13)) || (n =? 32))%nat.

Definition is_digit (c : ascii) : bool := between 48 57 c.

Definition digit_val (c : ascii) : Z := Z.of_nat (nat_of_ascii c - 48).

(** [s.isdigit()] on ASCII text, but true of the empty string too. *)
Fixpoint all_digits (s : string) : bool :=
  match s with
  | EmptyString => true
  | String c s' => is_digit c && all_digits s'
  end.

Fixpoint lstrip (l : list ascii) : list ascii :=
  match l with
  | c :: l' => if is_space c then lstrip l' else l
  | [] => []
  end.

Definition strip (l : list ascii) : list ascii :=
  rev (lstrip (rev (lstrip l))).

(** The digits of a literal once its first digit is read: more digits,
    each optionally preceded by one underscore. *)
Fixpoint int_digits (acc : Z) (l : list ascii) : option Z :=
  match l with
  | [] => Some acc
  | c :: l' =>
      if is_digit c then int_digits (10 * acc + digit_val c) l'
      else if Ascii.eqb c "_"%char then
        match l' with
        | d :: l'' =>
            if is_digit d then int_digits (10 * acc + digit_val d) l''
            else None
        | [] => None
        end
      else None
  end.

Definition int_unsigned (l : list ascii) : option Z :=
  match l with
  | c :: l' => if is_digit c then int_digits (digit_val c) l' else None
  | [] => None
  end.

(** [int(s)] in base 10: surrounding white space is dropped, one sign is
    allowed, and anything else than a decimal literal raises [ValueError]. *)
Definition int (s : string) : result Z :=
  let l := strip (list_ascii_of_string s) in
  let v :=
    match l with
    | c :: l' =>
        if Ascii.eqb c "-"%char then Z.opp <$> int_unsigned l'
        else if Ascii.eqb c "+"%char then int_unsigned l'
        else int_unsigned l
    | [] => None
    end in
  match v with
  | Some z => Ok z
  | None => Raise ValueError
  end.

(** [sub in s] *)
Fixpoint contains (sub s : string) : bool :=
  String.prefix sub s ||
  match s with
  | String _ s' => contains sub s'
  | EmptyString => false
  end.

(** The part of [s] before its last ["/"], if it has one. *)
Fixpoint before_last_slash (s : string) : option string :=
  match s with
  | EmptyString => None
  | String c s' =>
      match before_last_slash s' with
      | Some h => Some (String c h)
      | None => if Ascii.eqb c "/"%char then Some "" else None
      end
  end.

(** [s.rsplit("/", 1)[0]] *)
Definition rsplit_slash_head (s : string) : string :=
  default s (before_last_slash s).

(** [s.rstrip("/")] *)
Fixpoint rstrip_slash (s : string) : string :=
  match s with
  | EmptyString => EmptyString
  | String c s' =>
      match rstrip_slash s' with
      | EmptyString => if Ascii.eqb c "/"%char then "" else String c ""
      | t => String c t
      end
  end.

End PyStr.

(** ** The Landsat gap report: [deafrica/monitoring/landsat_gap_report.py] *)

Module Landsat.
Import PyStr.

Definition LANDSAT_INVENTORY_PATH : string :=
  "s3://deafrica-landsat-inventory/deafrica-landsat/deafrica-landsat-inventory/".
Definition USGS_S3_BUCKET_PATH : string := "s3://usgs-landsat".

(** A row of [csv.DictReader]: a dictionary from column names to values.
    A column of the header for which a short row has no value is present
    with the value [None]. *)
Abbreviation row := (gmap string (option string)).

(** [row[key]] *)
Definition getitem (r : row) (key : string) : result (option string) :=
  match r !! key with
  | Some v => Ok v
  | None => Raise (KeyError key)
  end.

(** [row.get(key)]: [None] for an absent key *)
Definition get (r : row) (key : string) : option string :=
  default None (r !! key).

(** [v.f()] for a string method [f]: [None] has no such attribute. *)
Definition method {A : Type} (f : string → A) (v : option string) : result A :=
  match v with
  | Some s => Ok (f s)
  | None => Raise AttributeError
  end.

(** [v is not None] *)
Definition is_not_None (v : option string) : bool :=
  match v with Some _ => true | None => false end.

(** [v != s] *)
Definition differs (v : option string) (s : string) : bool :=
  match v with Some t => negb (String.eqb t s) | None => true end.

(** A value inside a format string: [None] prints as its name. *)
Definition formatted (v : option string) : string := default "None" v.

(** [a and b], where [b] is evaluated only when [a] is true *)
Definition and_then (a b : result bool) : result bool :=
  x ←! a; if x then b else Ok false.

Record date := { year : Z; month : Z; day : Z }.

Section bulk_file.
(** [deafrica.utils.convert_str_to_date], which is not part of the two
    files: it is handed whatever the row holds and returns a date or
    raises. *)
Variable convert_str_to_date : option string → result date.
(** The path/row allow-list read from [AFRICA_GZ_PATHROWS_URL]. *)
Variable africa_pathrows : gset Z.

Definition build_path (file_row : row) : result string :=
  sensor ←! getitem file_row "Sensor Identifier";
  lowered ←! method lower sensor;
  let identifier := replace_char "_" "-" lowered in
  acquired ←! getitem file_row "Date Acquired";
  d ←! convert_str_to_date acquired;
  let year_acquired := year d in
  wrs_path ←! getitem file_row "WRS Path";
  target_path ←! method (zfill 3) wrs_path;
  wrs_row ←! getitem file_row "WRS Row";
  target_row ←! method (zfill 3) wrs_row;
  display_id ←! getitem file_row "Display ID";
  Ok ("collection02/level-2/standard/" +:+ identifier +:+ "/"
      +:+ pretty year_acquired +:+ "/" +:+ target_path +:+ "/"
      +:+ target_row +:+ "/" +:+ formatted display_id +:+ "/").

(** The string handed to [int] in the grid-cell test. *)
Definition grid_cell_text (r : row) : result string :=
  wrs_path ←! getitem r "WRS Path";
  p ←! method (zfill 3) wrs_path;
  wrs_row ←! getitem r "WRS Row";
  q ←! method (zfill 3) wrs_row;
  Ok (p +:+ q).

(** "Filter to skip all LANDSAT_4" *)
Definition skip_landsat_4 (r : row) : result bool :=
  and_then (Ok (is_not_None (get r "Satellite")))
    (and_then (v ←! getitem r "Satellite"; Ok (differs v "LANDSAT_4"))
              (v ←! getitem r "Satellite"; Ok (differs v "4"))).

(** "Filter to get just day" *)
Definition just_day (r : row) : result bool :=
  and_then (Ok (is_not_None (get r "Day/Night Indicator")))
    (v ←! getitem r "Day/Night Indicator";
     u ←! method upper v;
     Ok (String.eqb u "DAY")).

(** "Filter to get just from Africa" *)
Definition just_africa (r : row) : result bool :=
  and_then (Ok (is_not_None (get r "WRS Path")))
    (and_then (Ok (is_not_None (get r "WRS Row")))
       (t ←! grid_cell_text r;
        n ←! int t;
        Ok (bool_decide (n ∈ africa_pathrows)))).

(** The condition of the comprehension. *)
Definition row_filter (r : row) : result bool :=
  and_then (skip_landsat_4 r) (and_then (just_day r) (just_africa r)).

(** The set comprehension over the rows of the bulk file, in file order:
    the first row on which the condition or [build_path] raises ends it. *)
Fixpoint get_and_filter_keys_from_files (rows : list row)
  : result (gset string) :=
  match rows with
  | [] => Ok ∅
  | r :: rows' =>
      keep ←! row_filter r;
      if keep then
        key ←! build_path r;
        keys ←! get_and_filter_keys_from_files rows';
        Ok ({[ key ]} ∪ keys)
      else get_and_filter_keys_from_files rows'
  end.
End bulk_file.

Definition sat_prefix (landsat : string) : option string :=
  if String.eqb landsat "landsat_8" then Some "LC08"
  else if String.eqb landsat "landsat_7" then Some "LE07"
  else if String.eqb landsat "landsat_5" then Some "LT05"
  else None.

(** [list_inventory manifest prefix suffix contains] stands for
    [odc.aws.inventory.list_inventory]: the keys of the inventory. *)
Definition get_and_filter_keys
    (list_inventory : string → string → string → string → list string)
    (landsat : string) : result (gset string) :=
  match sat_prefix landsat with
  | None =>
      Raise (Exception ("Informed satellite " +:+ landsat +:+ " not supported"))
  | Some contains =>
      Ok (list_to_set
            ((λ key, rsplit_slash_head key +:+ "/") <$>
             list_inventory LANDSAT_INVENTORY_PATH "collection02"
               "_stac.json" contains))
  end.

(** [missing_scenes] is the set [source_paths] itself under a forced update
    and a list of URLs otherwise. *)
Inductive scenes : Type :=
  | SceneSet (s : gset string)
  | SceneList (l : list string).

Definition len (s : scenes) : nat :=
  match s with
  | SceneSet s => size s
  | SceneList l => List.length l
  end.

(** The dictionary of the report, as [json.dumps] accepts it. *)
Record gap_report := { orphan : list string; missing : list string }.

(** [json.dumps({"orphan": orphaned, "missing": missing})]: a [set] is not
    JSON serializable. *)
Definition json_dumps (orphaned : list string) (missing_scenes : scenes)
  : result gap_report :=
  match missing_scenes with
  | SceneList l => Ok {| orphan := orphaned; missing := l |}
  | SceneSet _ => Raise TypeError
  end.

Inductive event : Type :=
  | S3Dump (data : gap_report) (url : string)
  | SlackNotification (url title message : string).

Section report.
(** [url_div a b] is [str(URL(a) / b)] of the [urlpath] library. *)
Variable url_div : string → string → string.
(** [textwrap.dedent] *)
Variable dedent : string → string.

Variable bucket_name satellite_name : string.
Variable update_stac : bool.
Variable notification_url : option string.
(** [datetime.now().strftime("%Y-%m-%d")] *)
Variable date_string : string.

Definition landsat_status_report_path : string :=
  "s3://" +:+ bucket_name +:+ "/status-report/".
Definition landsat_status_report_url : string :=
  "https://" +:+ bucket_name +:+ ".s3.af-south-1.amazonaws.com/status-report/".
Definition environment : string :=
  if contains "dev" bucket_name then "DEV" else "PDS".

(** The keys that are missing and the keys that are orphan. *)
Definition missing_and_orphaned (source_paths dest_paths : gset string)
  : scenes * list string :=
  if update_stac then (SceneSet source_paths, [])
  else
    (SceneList (url_div USGS_S3_BUCKET_PATH <$>
                elements (source_paths ∖ dest_paths)),
     url_div ("s3://" +:+ bucket_name) <$>
     elements (dest_paths ∖ source_paths)).

Section emit.
Variable missing_scenes : scenes.
Variable orphaned_scenes : list string.

Definition found : bool :=
  (0 <? len missing_scenes)%nat || (0 <? List.length orphaned_scenes)%nat.

Definition output_filename : string :=
  if found then
    if negb update_stac
    then satellite_name +:+ "_" +:+ date_string +:+ "_gap_report.json"
    else date_string +:+ "_gap_report_update.json"
  else "No missing scenes were found".

Definition report_output : string :=
  if found then url_div landsat_status_report_url output_filename
  else output_filename.

Definition message : string :=
  dedent ("*" +:+ upper satellite_name +:+ " GAP REPORT - "
          +:+ environment +:+ "*" +:+ nl +:+ " "
          +:+ "Missing Scenes: " +:+ pretty (len missing_scenes) +:+ nl
          +:+ "Orphan Scenes: " +:+ pretty (List.length orphaned_scenes) +:+ nl
          +:+ "Report: " +:+ report_output +:+ nl).

Definition too_many : bool :=
  negb update_stac &&
  ((200 <? len missing_scenes)%nat || (200 <? List.length orphaned_scenes)%nat).

(** From [s3_client] to the end of the function: the events, and
    whether the function returns or raises. *)
Definition emit_report : list event * result unit :=
  let dumped :=
    if found then
      data ←! json_dumps orphaned_scenes missing_scenes;
      Ok [S3Dump data (url_div landsat_status_report_path output_filename)]
    else Ok [] in
  match dumped with
  | Raise e => ([], Raise e)
  | Ok written =>
      if too_many then
        (written ++
         match notification_url with
         | Some url =>
             [SlackNotification url (satellite_name +:+ " Gap Report")
                message]
         | None => []
         end,
         Raise (Exception ("More than 200 scenes were found " +:+ nl
                           +:+ " " +:+ message)))
      else (written, Ok tt)
  end.
End emit.

(** The function once both sets of keys are at hand. *)
Definition report_gaps (source_paths dest_paths : gset string)
  : list event * result unit :=
  let '(missing_scenes, orphaned_scenes) :=
    missing_and_orphaned source_paths dest_paths in
  emit_report missing_scenes orphaned_scenes.

Variable convert_str_to_date : option string → result date.
Variable africa_pathrows : gset Z.
Variable list_inventory : string → string → string → string → list string.
(** The rows of the downloaded bulk file. *)
Variable bulk_rows : list row.

Definition generate_buckets_diff : list event * result unit :=
  match get_and_filter_keys list_inventory satellite_name with
  | Raise e => ([], Raise e)
  | Ok dest_paths =>
      match get_and_filter_keys_from_files convert_str_to_date
              africa_pathrows bulk_rows with
      | Raise e => ([], Raise e)
      | Ok source_paths => report_gaps source_paths dest_paths
      end
  end.
End report.

End Landsat.

(** ** The CHIRPS downloader: [deafrica/data/chirps.py] *)

Module Chirps.
Import PyStr.

Definition MONTHLY_URL_TEMPLATE (in_file : string) : string :=
  "https://data.chc.ucsb.edu/products/CHIRPS-2.0/africa_monthly/tifs/"
  +:+ in_file.

Definition DAILY_URL_TEMPLATE (year in_file : string) : string :=
  "https://data.chc.ucsb.edu/products/CHIRPS-2.0/africa_daily/tifs/p05/"
  +:+ year +:+ "/" +:+ in_file.

(** [in_file], which the date and the granularity fix. *)
Definition source_file_name (year month day : string) (daily : bool) : string :=
  if daily
  then "chirps-v2.0." +:+ year +:+ "." +:+ month +:+ "." +:+ day +:+ ".tif.gz"
  else "chirps-v2.0." +:+ year +:+ "." +:+ month +:+ ".tif.gz".

(** The "file strings" set up at the start of the function. *)
Record file_strings := {
  in_file : string;
  in_href : string;
  in_data : string;
  out_data : string;
  out_stac : string
}.

Definition set_up_file_strings
    (year month day s3_monthly_dst s3_daily_dst : string) (daily : bool)
  : file_strings :=
  if daily then
    let in_file :=
      "chirps-v2.0." +:+ year +:+ "." +:+ month +:+ "." +:+ day +:+ ".tif.gz" in
    let in_href := DAILY_URL_TEMPLATE year in_file in
    let s3_dst := rstrip_slash s3_daily_dst in
    {| in_file := in_file;
       in_href := in_href;
       in_data := "/vsigzip//vsicurl/" +:+ in_href;
       out_data := s3_dst +:+ "/" +:+ year +:+ "/chirps-v2.0_" +:+ year
                   +:+ "." +:+ month +:+ "." +:+ day +:+ ".tif";
       out_stac := s3_dst +:+ "/" +:+ year +:+ "/chirps-v2.0_" +:+ year
                   +:+ "." +:+ month +:+ "." +:+ day +:+ ".stac-item.json" |}
  else
    let in_file := "chirps-v2.0." +:+ year +:+ "." +:+ month +:+ ".tif.gz" in
    let in_href := MONTHLY_URL_TEMPLATE in_file in
    let s3_dst := rstrip_slash s3_monthly_dst in
    {| in_file := in_file;
       in_href := in_href;
       in_data := "/vsigzip//vsicurl/" +:+ in_href;
       out_data := s3_dst +:+ "/chirps-v2.0_" +:+ year +:+ "." +:+ month
                   +:+ ".tif";
       out_stac := s3_dst +:+ "/chirps-v2.0_" +:+ year +:+ "." +:+ month
                   +:+ ".stac-item.json" |}.

(** [calendar.isleap] *)
Definition isleap (y : Z) : bool :=
  ((y mod 4 =? 0) && (negb (y mod 100 =? 0) || (y mod 400 =? 0)))%Z.

Definition mdays (y m : Z) : Z :=
  if (m =? 2)%Z then (if isleap y then 29 else 28)%Z
  else if ((m =? 4) || (m =? 6) || (m =? 9) || (m =? 11))%Z then 30%Z
  else 31%Z.

(** The number of days [calendar.monthrange(y, m)] returns second. *)
Definition monthrange (y m : Z) : result Z :=
  if ((1 <=? m) && (m <=? 12))%Z then Ok (mdays y m) else Raise ValueError.

(** [datetime(y, m, d)] *)
Definition datetime (y m d : Z) : result (Z * Z * Z) :=
  if ((1 <=? y) && (y <=? 9999) && (1 <=? m) && (m <=? 12)
      && (1 <=? d) && (d <=? mdays y m))%Z
  then Ok (y, m, d) else Raise ValueError.

(** The STAC item once the function has set its link, asset and source. *)
Record stac_item := {
  item_id : string;
  input_datetime : Z * Z * Z;
  properties : list (string * string);
  self_href : string;
  rainfall_href : string;
  derived_from : string
}.

Inductive outcome : Type :=
  | Returned
  | Exit (code : Z).

(** What the calls made inside the [try] raise, if they raise:
    [s3_head_object(url)]; the making of the item by [rio_stac] and the
    edits on it ([set_self_href], [del item.assets], [pystac.Asset],
    [add_links]); [json.dumps(item.to_dict())]; and [s3_dump(data, url)]. *)
Record faults := {
  head_fault : string → option exn;
  item_fault : stac_item → option exn;
  json_fault : stac_item → option exn;
  dump_fault : string → option exn
}.

Definition no_faults : faults :=
  {| head_fault := λ _, None; item_fault := λ _, None;
     json_fault := λ _, None; dump_fault := λ _, None |}.

Definition raise_if (fault : option exn) : result unit :=
  match fault with
  | Some e => Raise e
  | None => Ok tt
  end.

Section download.
(** The bytes of a raster. *)
Variable raster : Type.
(** [cog_translate in_data] stands for the conversion by [rio_cogeo]:
    the COG written to the memory file, unless it raises. *)
Variable cog_translate : string → result raster.
(** [odc.index.odc_uuid algorithm algorithm_version sources], printed. *)
Variable odc_uuid : string → string → list string → string.
(** [str(e)] for an exception. *)
Variable str_exn : exn → string.
(** [datetime_to_str(datetime.now())] *)
Variable now : string.
(** The calls that raise during the run. *)
Variable raising : faults.

Inductive s3_object : Type :=
  | Cog (data : raster)
  | StacJson (item : stac_item).

(** [CogTranslate] is the call of [cog_translate]; [S3Dump] is an object
    that [s3_dump] has written. *)
Inductive event : Type :=
  | CogTranslate (src : string)
  | S3Dump (data : s3_object) (url : string)
  | SlackNotification (url title message : string).

(** The objects of S3, by URL. *)
Abbreviation bucket := (gmap string s3_object).

(** [s3_head_object(url)] as a truth value *)
Definition s3_head_object (s3 : bucket) (url : string) : bool :=
  bool_decide (is_Some (s3 !! url)).

Record run := {
  events : list event;
  s3_after : bucket;
  result_of : outcome
}.

Variable year month day s3_monthly_dst s3_daily_dst : string.
Variable overwrite daily : bool.
Variable slack_url : option string.

(** "Creating the STAC document with appropriate date range" *)
Definition create_stac_item (f : file_strings) : result stac_item :=
  if daily then
    y ←! int year; m ←! int month; d ←! int day;
    dt ←! datetime y m d;
    Ok {| item_id := odc_uuid "chirps" "2.0" [in_file f];
          input_datetime := dt;
          properties :=
            [("odc:processing_datetime", now);
             ("odc:product", "rainfall_chirps_daily");
             ("start_datetime",
              year +:+ "-" +:+ month +:+ "-" +:+ day +:+ "T00:00:00Z");
             ("end_datetime",
              year +:+ "-" +:+ month +:+ "-" +:+ day +:+ "T23:59:59Z")];
          self_href := out_stac f;
          rainfall_href := out_data f;
          derived_from := in_href f |}
  else
    y ←! int year; m ←! int month;
    last ←! monthrange y m;
    y' ←! int year; m' ←! int month;
    dt ←! datetime y' m' 15;
    Ok {| item_id := odc_uuid "chirps" "2.0" [in_file f];
          input_datetime := dt;
          properties :=
            [("odc:processing_datetime", now);
             ("odc:product", "rainfall_chirps_monthly");
             ("start_datetime",
              year +:+ "-" +:+ month +:+ "-01T00:00:00Z");
             ("end_datetime",
              year +:+ "-" +:+ month +:+ "-" +:+ pretty last
              +:+ "T23:59:59Z")];
          self_href := out_stac f;
          rainfall_href := out_data f;
          derived_from := in_href f |}.

(** The [except] branch: notify, then [exit(1)]. *)
Definition failed (done : list event) (s3 : bucket) (f : file_strings)
    (e : exn) : run :=
  let message :=
    "Failed to handle " +:+ in_file f +:+ " with error " +:+ str_exn e in
  {| events :=
       done ++
       match slack_url with
       | Some url => [SlackNotification url "Chirps Rainfall Monthly" message]
       | None => []
       end;
     s3_after := s3;
     result_of := Exit 1 |}.

(** [not overwrite and s3_head_object(out_stac)] *)
Definition already_there (s3 : bucket) (url : string) : result bool :=
  if overwrite then Ok false
  else u ←! raise_if (head_fault raising url); Ok (s3_head_object s3 url).

(** The item, made and edited, before anything is written. *)
Definition item_for (f : file_strings) : result stac_item :=
  item ←! create_stac_item f;
  u ←! raise_if (item_fault raising item);
  Ok item.

(** [json.dumps(item.to_dict())] and then [s3_dump] of the result. *)
Definition dump_item (f : file_strings) (item : stac_item) : result unit :=
  u ←! raise_if (json_fault raising item);
  raise_if (dump_fault raising (out_stac f)).

Definition download_and_cog_chirps (s3 : bucket) : run :=
  let f := set_up_file_strings year month day s3_monthly_dst s3_daily_dst
             daily in
  match already_there s3 (out_stac f) with
  | Raise e => failed [] s3 f e
  | Ok true => {| events := []; s3_after := s3; result_of := Returned |}
  | Ok false =>
      match cog_translate (in_data f) with
      | Raise e => failed [CogTranslate (in_data f)] s3 f e
      | Ok cog =>
          match item_for f with
          | Raise e => failed [CogTranslate (in_data f)] s3 f e
          | Ok item =>
              match raise_if (dump_fault raising (out_data f)) with
              | Raise e => failed [CogTranslate (in_data f)] s3 f e
              | Ok _ =>
                  let stored := <[out_data f := Cog cog]> s3 in
                  match dump_item f item with
                  | Raise e =>
                      failed [CogTranslate (in_data f);
                              S3Dump (Cog cog) (out_data f)] stored f e
                  | Ok _ =>
                      {| events := [CogTranslate (in_data f);
                                    S3Dump (Cog cog) (out_data f);
                                    S3Dump (StacJson item) (out_stac f)];
                         s3_after := <[out_stac f := StacJson item]> stored;
                         result_of := Returned |}
                  end
              end
          end
      end
  end.

(** How many conversions a sequence of events holds. *)
Definition is_conversion (e : event) : bool :=
  match e with
  | CogTranslate _ => true
  | _ => false
  end.

Definition conversions (l : list event) : nat :=
  List.length (List.filter is_conversion l).
End download.

End Chirps.

(** ** The command line of the gap report *)

Module LandsatCli.
Import PyStr Landsat.

Definition FILES : list (string * string) :=
  [("landsat_8", "LANDSAT_OT_C2_L2.csv.gz");
   ("landsat_7", "LANDSAT_ETM_C2_L2.csv.gz");
   ("landsat_5", "LANDSAT_TM_C2_L2.csv.gz")].

Definition BASE_BULK_CSV_URL : string :=
  "https://landsat.usgs.gov/landsat/metadata_service/bulk_metadata_files/".

(** [d.get(key, None)] for a dictionary written as its list of items *)
Fixpoint dict_get (d : list (string * string)) (key : string) : option string :=
  match d with
  | [] => None
  | (k, v) :: d' => if String.eqb k key then Some v else dict_get d' key
  end.

Section cli.
Variable url_div : string → string → string.
Variable dedent : string → string.
Variable date_string : string.
Variable convert_str_to_date : option string → result date.
Variable africa_pathrows : gset Z.
Variable list_inventory : string → string → string → string → list string.
(** [deafrica.__version__] *)
Variable version_string : string.
(** The rows of the file that [download_file_to_tmp url file_name] fetches,
    as [csv.DictReader] reads them. *)
Variable downloaded_rows : string → option string → list row.

(** What [click.echo] prints, and what [generate_buckets_diff] does. *)
Definition cli (bucket_name satellite : string) (update_stac : bool)
    (slack_url : option string) (version : bool)
  : list string * (list event * result unit) :=
  (if version then [version_string] else [],
   generate_buckets_diff url_div dedent bucket_name satellite update_stac
     slack_url date_string convert_str_to_date africa_pathrows list_inventory
     (downloaded_rows BASE_BULK_CSV_URL (dict_get FILES satellite))).
End cli.

End LandsatCli.

(** ** Predicates on keys *)

Module Keys.

(** No ["/"] in [s]. *)
Fixpoint no_slash (s : string) : bool :=
  match s with
  | EmptyString => true
  | String c s' => negb (Ascii.eqb c "/"%char) && no_slash s'
  end.

(** [s.endswith("/")] *)
Fixpoint ends_with_slash (s : string) : bool :=
  match s with
  | EmptyString => false
  | String c EmptyString => Ascii.eqb c "/"%char
  | String _ s' => ends_with_slash s'
  end.

End Keys.

(** ** Sample inputs *)

Module Samples.
Import Landsat.

(** A daytime Landsat 8 scene of path 3, row 45. *)
Definition scene_row : row :=
  <["Satellite" := Some "8"]>
  (<["Day/Night Indicator" := Some "Day"]>
   (<["WRS Path" := Some "3"]>
    (<["WRS Row" := Some "45"]>
     (<["Sensor Identifier" := Some "OLI_TIRS"]>
      (<["Date Acquired" := Some "2021-03-04"]>
       (<["Display ID" := Some "LC08_L2SP_003045_20210304_20210312_02_T1"]>
        ∅)))))).

Definition landsat_4_row : row := <["Satellite" := Some "LANDSAT_4"]> scene_row.
Definition night_row : row :=
  <["Day/Night Indicator" := Some "NIGHT"]> scene_row.
(** A row that ends before its last column. *)
Definition short_row : row := <["WRS Row" := None]> scene_row.


(** A stand-in for [urlpath]: the key follows the root and a slash,
    unless the root already ends with one. *)
Definition join (root key : string) : string :=
  PyStr.rstrip_slash root +:+ "/" +:+ key.

(** Stand-ins for the conversion, for [odc_uuid] and for [str(e)]. *)
Definition sample_cog (src : string) : result string := Ok ("COG of " +:+ src).
Definition sample_uuid (algorithm version : string) (sources : list string)
  : string :=
  algorithm +:+ "/" +:+ version +:+ "/" +:+ String.concat "," sources.
Definition sample_str (e : exn) : string := "error".

(** The item for January 2020, as a run at time [now] sending it to the
    monthly destination [dst] builds it. *)
Definition january_item (now dst : string) : Chirps.stac_item :=
  {| Chirps.item_id := "chirps/2.0/chirps-v2.0.2020.01.tif.gz";
     Chirps.input_datetime := (2020, 1, 15)%Z;
     Chirps.properties :=
       [("odc:processing_datetime", now);
        ("odc:product", "rainfall_chirps_monthly");
        ("start_datetime", "2020-01-01T00:00:00Z");
        ("end_datetime", "2020-01-31T23:59:59Z")];
     Chirps.self_href := dst +:+ "/chirps-v2.0_2020.01.stac-item.json";
     Chirps.rainfall_href := dst +:+ "/chirps-v2.0_2020.01.tif";
     Chirps.derived_from :=
       "https://data.chc.ucsb.edu/products/CHIRPS-2.0/africa_monthly/tifs/"
       +:+ "chirps-v2.0.2020.01.tif.gz" |}.

(** The key of [scene_row] and an inventory that lists its STAC document. *)
Definition scene_key : string :=
  "collection02/level-2/standard/oli-tirs/2021/003/045/"
  +:+ "LC08_L2SP_003045_20210304_20210312_02_T1/".
Definition scene_stac_name : string :=
  "LC08_L2SP_003045_20210304_20210312_02_T1_stac.json".
Definition sample_inventory (manifest prefix suffix product : string)
  : list string :=
  if String.eqb product "LC08" then [scene_key +:+ scene_stac_name] else [].

(** A row whose WRS path is not a number. *)
Definition bad_path_row : row := <["WRS Path" := Some "abc"]> scene_row.

(** A world in which the item cannot be sent to S3. *)
Definition item_dump_fails : Chirps.faults :=
  {| Chirps.head_fault := λ _, None;
     Chirps.item_fault := λ _, None;
     Chirps.json_fault := λ _, None;
     Chirps.dump_fault := λ url,
       if String.eqb url
            "s3://rainfall/monthly/chirps-v2.0_2020.01.stac-item.json"
       then Some (Exception "An error occurred (AccessDenied)")
       else None |}.

(** A stand-in for [convert_str_to_date]: every date is in 2021. *)
Definition sample_date (v : option string) : result date :=
  match v with
  | Some _ => Ok {| year := 2021; month := 3; day := 4 |}
  | None => Raise TypeError
  end.
End Samples.

(** * Properties *)

(** ** Strings *)

Section strings.
Import PyStr.

Lemma length_zeros n : String.length (zeros n) = n.
Proof. induction n as [|n IH]; simpl; congruence. Qed.

Lemma length_append (s t : string) :
  String.length (s +:+ t) = String.length s + String.length t.
Proof. induction s as [|c s IH]; simpl; [done|]. by rewrite IH. Qed.

(** [zfill] pads up to the width and never shortens. *)
Lemma length_zfill w s : String.length (zfill w s) = w `max` String.length s.
Proof.
  unfold zfill. destruct (Nat.leb_spec w (String.length s)) as [Hle|Hlt].
  { lia. }
  destruct s as [|c s]; simpl in *.
  { rewrite length_zeros. lia. }
  destruct (Ascii.eqb c "+" || Ascii.eqb c "-"); simpl;
    rewrite length_append, length_zeros; simpl; lia.
Qed.

Lemma all_digits_append s t :
  all_digits (s +:+ t) = all_digits s && all_digits t.
Proof.
  induction s as [|c s IH]; simpl; [done|]. rewrite IH. apply andb_assoc.
Qed.

Lemma all_digits_zeros n : all_digits (zeros n) = true.
Proof. induction n as [|n IH]; simpl; [done|]. by rewrite IH. Qed.

Lemma all_digits_zfill w s : all_digits s = true → all_digits (zfill w s) = true.
Proof.
  intros Hs. unfold zfill. destruct (w <=? String.length s); [done|].
  destruct s as [|c s]; [apply all_digits_zeros|].
  simpl in Hs. apply andb_prop in Hs as [Hc Hs].
  assert (Ascii.eqb c "+" || Ascii.eqb c "-" = false) as ->.
  { apply orb_false_intro; apply Ascii.eqb_neq; intros ->; discriminate. }
  rewrite all_digits_append, all_digits_zeros. simpl. by rewrite Hc, Hs.
Qed.

Ltac by_cases_on_char c :=
  destruct c as [[] [] [] [] [] [] [] []]; vm_compute;
  split; intros H; try discriminate H; auto;
  destruct H as [H|H]; discriminate H || reflexivity.

Lemma upper_ascii_D c : upper_ascii c = "D"%char ↔ c = "D"%char ∨ c = "d"%char.
Proof. by_cases_on_char c. Qed.

Lemma upper_ascii_A c : upper_ascii c = "A"%char ↔ c = "A"%char ∨ c = "a"%char.
Proof. by_cases_on_char c. Qed.

Lemma upper_ascii_Y c : upper_ascii c = "Y"%char ↔ c = "Y"%char ∨ c = "y"%char.
Proof. by_cases_on_char c. Qed.

(** The strings whose upper case is ["DAY"] are the eight ways of writing
    the word in upper and lower case. *)
Lemma upper_DAY s :
  upper s = "DAY" ↔
  ∃ c1 c2 c3, s = String c1 (String c2 (String c3 "")) ∧
    (c1 = "D"%char ∨ c1 = "d"%char) ∧ (c2 = "A"%char ∨ c2 = "a"%char) ∧
    (c3 = "Y"%char ∨ c3 = "y"%char).
Proof.
  split.
  - destruct s as [|c1 [|c2 [|c3 [|c4 s]]]]; try discriminate.
    unfold upper; simpl. intros [= H1 H2 H3].
    exists c1, c2, c3. rewrite <- upper_ascii_D, <- upper_ascii_A, <- upper_ascii_Y.
    done.
  - intros (c1 & c2 & c3 & -> & H1 & H2 & H3).
    apply upper_ascii_D in H1. apply upper_ascii_A in H2.
    apply upper_ascii_Y in H3. unfold upper; simpl. by rewrite H1, H2, H3.
Qed.
End strings.

(** ** The filter on the rows of the bulk file *)

Section bulk_file_properties.
Import PyStr Landsat.

Variable convert_str_to_date : option string → result date.
Variable africa_pathrows : gset Z.

Local Abbreviation build_path := (build_path convert_str_to_date).
Local Abbreviation just_africa := (just_africa africa_pathrows).
Local Abbreviation row_filter := (row_filter africa_pathrows).
Local Abbreviation get_and_filter_keys_from_files :=
  (get_and_filter_keys_from_files convert_str_to_date africa_pathrows).

(** The three parts of the condition, by the values [row.get] returns. *)

Lemma skip_landsat_4_get (r : row) :
  skip_landsat_4 r =
  Ok match get r "Satellite" with
     | Some s => negb (String.eqb s "LANDSAT_4") && negb (String.eqb s "4")
     | None => false
     end.
Proof.
  unfold skip_landsat_4, get, getitem.
  destruct (r !! "Satellite") as [[s|]|]; simpl; [|done..].
  by destruct (String.eqb s "LANDSAT_4").
Qed.

Lemma just_day_get (r : row) :
  just_day r =
  Ok match get r "Day/Night Indicator" with
     | Some s => String.eqb (upper s) "DAY"
     | None => false
     end.
Proof.
  unfold just_day, get, getitem.
  by destruct (r !! "Day/Night Indicator") as [[s|]|].
Qed.

Lemma just_africa_get (r : row) :
  just_africa r =
  match get r "WRS Path", get r "WRS Row" with
  | Some p, Some q =>
      n ←! int (zfill 3 p +:+ zfill 3 q);
      Ok (bool_decide (n ∈ africa_pathrows))
  | _, _ => Ok false
  end.
Proof.
  unfold Landsat.just_africa, grid_cell_text, get, getitem.
  destruct (r !! "WRS Path") as [[p|]|]; simpl; [|done..].
  by destruct (r !! "WRS Row") as [[q|]|].
Qed.

Lemma row_filter_get (r : row) :
  row_filter r =
  match get r "Satellite" with
  | Some s =>
      if negb (String.eqb s "LANDSAT_4") && negb (String.eqb s "4") then
        match get r "Day/Night Indicator" with
        | Some d => if String.eqb (upper d) "DAY" then just_africa r else Ok false
        | None => Ok false
        end
      else Ok false
  | None => Ok false
  end.
Proof.
  unfold Landsat.row_filter. rewrite skip_landsat_4_get, just_day_get.
  destruct (get r "Satellite") as [s|]; simpl; [|done].
  destruct (negb (String.eqb s "LANDSAT_4") && negb (String.eqb s "4")); [|done].
  simpl. destruct (get r "Day/Night Indicator") as [d|]; simpl; [|done].
  by destruct (String.eqb (upper d) "DAY").
Qed.

Lemma get_Some (r : row) k v : r !! k = Some (Some v) → get r k = Some v.
Proof. unfold get. by intros ->. Qed.

(** A row that the condition rejects adds nothing to the keys. *)
Lemma dropped_row (r : row) rows :
  row_filter r = Ok false →
  get_and_filter_keys_from_files (r :: rows) =
  get_and_filter_keys_from_files rows.
Proof. simpl. by intros ->. Qed.



(** C5. A row passes the geographic filter exactly when the integer read
    from its WRS path and WRS row, each filled with zeros to three
    characters and then joined, is in the allow-list. Path ["3"] and row
    ["45"] are looked up as 3045; path ["12"] and row ["7"] become ["012"]
    and ["007"] and are looked up as 12007. *)
Theorem grid_cell_lookup :
  (∀ (r : row) p q n,
     r !! "WRS Path" = Some (Some p) → r !! "WRS Row" = Some (Some q) →
     int (zfill 3 p +:+ zfill 3 q) = Ok n →
     just_africa r = Ok (bool_decide (n ∈ africa_pathrows)) ∧
     (just_africa r = Ok true ↔ n ∈ africa_pathrows)) ∧
  (∀ r : row,
     r !! "WRS Path" = Some (Some "3") → r !! "WRS Row" = Some (Some "45") →
     grid_cell_text r = Ok "003045" ∧
     (just_africa r = Ok true ↔ 3045%Z ∈ africa_pathrows)) ∧
  (∀ r : row,
     r !! "WRS Path" = Some (Some "12") → r !! "WRS Row" = Some (Some "7") →
     grid_cell_text r = Ok ("012" +:+ "007") ∧
     (just_africa r = Ok true ↔ 12007%Z ∈ africa_pathrows)).
Proof.
  assert (∀ (r : row) p q n,
     r !! "WRS Path" = Some (Some p) → r !! "WRS Row" = Some (Some q) →
     int (zfill 3 p +:+ zfill 3 q) = Ok n →
     just_africa r = Ok (bool_decide (n ∈ africa_pathrows)) ∧
     (just_africa r = Ok true ↔ n ∈ africa_pathrows)) as Hgen.
  { intros r p q n Hp Hq Hn.
    rewrite just_africa_get, (get_Some _ _ _ Hp), (get_Some _ _ _ Hq), Hn.
    simpl. split; [done|]. split.
    - intros [= H]. by apply bool_decide_eq_true in H.
    - intros H. f_equal. by apply bool_decide_eq_true. }
  split; [exact Hgen|].
  split; intros r Hp Hq.
  - split; [|by apply (Hgen r "3" "45")].
    unfold grid_cell_text, getitem. by rewrite Hp, Hq.
  - split; [|by apply (Hgen r "12" "7")].
    unfold grid_cell_text, getitem. by rewrite Hp, Hq.
Qed.

(** C6. For every WRS path and row, each a number written with at most
    three decimal digits, the text handed to [int] (the path and the row,
    each filled with zeros to three characters) has exactly six digits. *)
Theorem grid_cell_six_digits (r : row) p q :
  r !! "WRS Path" = Some (Some p) → r !! "WRS Row" = Some (Some q) →
  all_digits p = true → all_digits q = true →
  String.length p ≤ 3 → String.length q ≤ 3 →
  ∃ t, grid_cell_text r = Ok t ∧ String.length t = 6 ∧ all_digits t = true.
Proof.
  intros Hp Hq Dp Dq Lp Lq. exists (zfill 3 p +:+ zfill 3 q).
  split; [unfold grid_cell_text, getitem; by rewrite Hp, Hq|].
  rewrite length_append, !length_zfill, all_digits_append.
  split; [lia|]. by rewrite !all_digits_zfill.
Qed.

(** C7. The condition rejects, without raising, a row of Landsat 4 under
    either of its names, a row whose day/night indicator is not ["DAY"]
    in some mix of upper and lower case, and a row for which [row.get]
    finds no satellite, day/night indicator, WRS path or WRS row; a row
    it rejects adds no key. *)
Theorem expected_set_filter (r : row) :
  (get r "Satellite" = Some "4" ∨ get r "Satellite" = Some "LANDSAT_4" →
   row_filter r = Ok false) ∧
  (∀ d, get r "Day/Night Indicator" = Some d → upper d ≠ "DAY" →
        row_filter r = Ok false) ∧
  (row_filter r = Ok true →
   ∃ c1 c2 c3,
     get r "Day/Night Indicator" = Some (String c1 (String c2 (String c3 ""))) ∧
     (c1 = "D"%char ∨ c1 = "d"%char) ∧ (c2 = "A"%char ∨ c2 = "a"%char) ∧
     (c3 = "Y"%char ∨ c3 = "y"%char)) ∧
  (get r "Satellite" = None ∨ get r "Day/Night Indicator" = None ∨
   get r "WRS Path" = None ∨ get r "WRS Row" = None →
   row_filter r = Ok false) ∧
  (∀ rows, row_filter r = Ok false →
           get_and_filter_keys_from_files (r :: rows) =
           get_and_filter_keys_from_files rows).
Proof.
  rewrite row_filter_get, just_africa_get.
  split; [|split; [|split; [|split]]].
  - by intros [-> | ->].
  - intros d -> Hd. apply String.eqb_neq in Hd. rewrite Hd.
    by repeat case_match.
  - intros H. destruct (get r "Day/Night Indicator") as [d|];
      [|by repeat case_match].
    destruct (String.eqb (upper d) "DAY") eqn:Hd; [|by repeat case_match].
    apply String.eqb_eq, upper_DAY in Hd as (c1 & c2 & c3 & -> & ?).
    by exists c1, c2, c3.
  - intros [-> | [-> | [-> | ->]]]; by repeat case_match.
  - intros rows H. apply dropped_row.
    by rewrite row_filter_get, just_africa_get.
Qed.



End bulk_file_properties.

Section bulk_file_instances.
Import PyStr Landsat Samples.

Lemma grid_cell_lookup_witness :
  scene_row !! "WRS Path" = Some (Some "3") ∧
  scene_row !! "WRS Row" = Some (Some "45") ∧
  int (zfill 3 "3" +:+ zfill 3 "45") = Ok 3045%Z ∧
  just_africa {[3045%Z]} scene_row = Ok true.
Proof.
  repeat (split; [reflexivity|]).
  apply (proj1 (grid_cell_lookup {[3045%Z]}) scene_row "3" "45" 3045%Z);
    [reflexivity..|].
  by apply elem_of_singleton.
Defined.

Lemma grid_cell_six_digits_witness :
  ∃ t, grid_cell_text scene_row = Ok t ∧ String.length t = 6
       ∧ all_digits t = true.
Proof.
  apply (grid_cell_six_digits scene_row "3" "45"); try reflexivity;
    vm_compute; lia.
Defined.

Lemma expected_set_filter_witness :
  get landsat_4_row "Satellite" = Some "LANDSAT_4" ∧
  row_filter {[3045%Z]} landsat_4_row = Ok false ∧
  get night_row "Day/Night Indicator" = Some "NIGHT" ∧
  row_filter {[3045%Z]} night_row = Ok false ∧
  get short_row "WRS Row" = None ∧
  row_filter {[3045%Z]} short_row = Ok false ∧
  get_and_filter_keys_from_files sample_date {[3045%Z]} [short_row; scene_row]
  = get_and_filter_keys_from_files sample_date {[3045%Z]} [scene_row].
Proof.
  destruct (expected_set_filter sample_date {[3045%Z]} landsat_4_row)
    as (Hfour & _).
  destruct (expected_set_filter sample_date {[3045%Z]} night_row)
    as (_ & Hnight & _).
  destruct (expected_set_filter sample_date {[3045%Z]} short_row)
    as (_ & _ & _ & Hmissing & Hdropped).
  split; [reflexivity|]. split.
  { apply Hfour. right. reflexivity. }
  split; [reflexivity|]. split.
  { apply (Hnight "NIGHT"); [reflexivity|]. vm_compute. discriminate. }
  split; [reflexivity|].
  assert (row_filter {[3045%Z]} short_row = Ok false) as Hshort.
  { apply Hmissing. do 3 right. reflexivity. }
  split; [exact Hshort|].
  apply Hdropped. exact Hshort.
Defined.


End bulk_file_instances.

(** ** The report on missing and orphaned scenes *)

Section report_properties.
Import PyStr Landsat.

Variable url_div : string → string → string.
Variable dedent : string → string.

Local Abbreviation missing_and_orphaned := (missing_and_orphaned url_div).
Local Abbreviation report_gaps := (report_gaps url_div dedent).
Local Abbreviation emit_report := (emit_report url_div dedent).
Local Abbreviation message := (message url_div dedent).

Lemma length_urls (f : string → string) (X : gset string) :
  List.length (f <$> elements X) = size X.
Proof. by rewrite length_fmap. Qed.

Lemma elem_of_urls (f : string → string) (X Y : gset string) u :
  u ∈ (f <$> elements (X ∖ Y)) ↔ ∃ k, k ∈ X ∧ (k ∉ Y) ∧ u = f k.
Proof.
  rewrite list_elem_of_fmap. split.
  - intros (k & -> & Hk).
    apply elem_of_elements, elem_of_difference in Hk.
    exists k. tauto.
  - intros (k & HX & HY & ->). exists k. split; [done|].
    apply elem_of_elements, elem_of_difference. tauto.
Qed.

(** Without a forced update the two lists are the two differences. *)
Lemma missing_and_orphaned_diff bucket_name (E O : gset string) :
  missing_and_orphaned bucket_name false E O =
  (SceneList (url_div USGS_S3_BUCKET_PATH <$> elements (E ∖ O)),
   url_div ("s3://" +:+ bucket_name) <$> elements (O ∖ E)).
Proof. reflexivity. Qed.

(** Whether a report is written and whether the run is fatal, by the
    sizes of the two differences. *)
Lemma found_diff bucket_name (E O : gset string) :
  found (SceneList (url_div USGS_S3_BUCKET_PATH <$> elements (E ∖ O)))
        (url_div ("s3://" +:+ bucket_name) <$> elements (O ∖ E))
  = (0 <? size (E ∖ O)) || (0 <? size (O ∖ E)).
Proof. unfold found, len. by rewrite !length_urls. Qed.

Lemma too_many_diff bucket_name (E O : gset string) :
  too_many false
    (SceneList (url_div USGS_S3_BUCKET_PATH <$> elements (E ∖ O)))
    (url_div ("s3://" +:+ bucket_name) <$> elements (O ∖ E))
  = (200 <? size (E ∖ O)) || (200 <? size (O ∖ E)).
Proof. unfold too_many, len. by rewrite !length_urls. Qed.

(** C1. Without a forced update, [missing] is the expected keys that are
    not observed, each joined to the USGS bucket, and [orphan] is the
    observed keys that are not expected, each joined to the bucket of the
    report; for the expected keys a/, b/, c/ and the observed keys b/, d/
    these are a/ and c/ on the one hand and d/ on the other. *)
Theorem reconcile_difference (bucket_name : string) :
  (∀ E O : gset string,
     ∃ missing orphan,
       missing_and_orphaned bucket_name false E O = (SceneList missing, orphan) ∧
       missing ≡ₚ (url_div USGS_S3_BUCKET_PATH <$> elements (E ∖ O)) ∧
       orphan ≡ₚ (url_div ("s3://" +:+ bucket_name) <$> elements (O ∖ E)) ∧
       (∀ u, u ∈ missing ↔
             ∃ k, k ∈ E ∧ (k ∉ O) ∧ u = url_div USGS_S3_BUCKET_PATH k) ∧
       (∀ u, u ∈ orphan ↔
             ∃ k, k ∈ O ∧ (k ∉ E) ∧ u = url_div ("s3://" +:+ bucket_name) k) ∧
       List.length missing = size (E ∖ O) ∧
       List.length orphan = size (O ∖ E)) ∧
  (∃ missing orphan,
     missing_and_orphaned bucket_name false
       {["a/"; "b/"; "c/"]} {["b/"; "d/"]} = (SceneList missing, orphan) ∧
     missing ≡ₚ [url_div "s3://usgs-landsat" "a/";
                 url_div "s3://usgs-landsat" "c/"] ∧
     orphan = [url_div ("s3://" +:+ bucket_name) "d/"]).
Proof.
  split.
  - intros E O. eexists _, _. split; [apply missing_and_orphaned_diff|].
    split; [done|]. split; [done|].
    split; [apply elem_of_urls|]. split; [apply elem_of_urls|].
    split; apply length_urls.
  - eexists _, _. split; [apply missing_and_orphaned_diff|].
    assert (elements (({["a/"; "b/"; "c/"]} : gset string) ∖ {["b/"; "d/"]})
            = ["c/"; "a/"]) as -> by (vm_compute; reflexivity).
    assert (elements (({["b/"; "d/"]} : gset string) ∖ {["a/"; "b/"; "c/"]})
            = ["d/"]) as -> by (vm_compute; reflexivity).
    split; [apply Permutation_swap | reflexivity].
Qed.

(** X9. What a forced update with something to report then does: the set
    reaches [json.dumps] as it is, which raises [TypeError] before anything
    is sent to S3 or to Slack. *)
Lemma forced_update_report_raises
    (bucket_name satellite_name date_string : string)
    (notification_url : option string) (E O : gset string) :
  E ≠ ∅ →
  report_gaps bucket_name satellite_name true notification_url date_string E O
  = ([], Raise TypeError).
Proof.
  intros HE. unfold Landsat.report_gaps, Landsat.emit_report, found. simpl.
  assert (size E ≠ 0) as Hsize.
  { intros H. by apply size_empty_iff, leibniz_equiv in H. }
  destruct (size E) as [|n]; [done|]. reflexivity.
Qed.

(** C2. Under a forced update no difference is taken: [missing] is the
    set of expected keys itself and [orphan] is empty, and nothing the
    function does depends on the observed keys. *)
Theorem forced_update_skips_difference
    (bucket_name satellite_name date_string : string)
    (notification_url : option string) (E O : gset string) :
  missing_and_orphaned bucket_name true E O = (SceneSet E, []) ∧
  ∀ O' : gset string,
    report_gaps bucket_name satellite_name true notification_url date_string
      E O' =
    report_gaps bucket_name satellite_name true notification_url date_string
      E O.
Proof. split; reflexivity. Qed.


(** C4. When there is neither a missing nor an orphaned scene, forced
    update or not, nothing is sent to S3 and the summary gives, where the
    URL of the report would be, the words "No missing scenes were found". *)
Theorem empty_diff_writes_nothing
    (bucket_name satellite_name date_string : string) (update_stac : bool)
    (notification_url : option string) :
  (∀ (missing_scenes : scenes) (orphaned_scenes : list string),
     len missing_scenes = 0 → List.length orphaned_scenes = 0 →
     emit_report bucket_name satellite_name update_stac notification_url
       date_string missing_scenes orphaned_scenes = ([], Ok tt) ∧
     report_output url_div bucket_name satellite_name update_stac date_string
       missing_scenes orphaned_scenes = "No missing scenes were found" ∧
     message bucket_name satellite_name update_stac date_string
       missing_scenes orphaned_scenes =
     dedent ("*" +:+ upper satellite_name +:+ " GAP REPORT - "
             +:+ environment bucket_name +:+ "*" +:+ nl +:+ " "
             +:+ "Missing Scenes: 0" +:+ nl
             +:+ "Orphan Scenes: 0" +:+ nl
             +:+ "Report: No missing scenes were found" +:+ nl)) ∧
  (∀ E O : gset string,
     len (missing_and_orphaned bucket_name update_stac E O).1 = 0 →
     List.length (missing_and_orphaned bucket_name update_stac E O).2 = 0 →
     report_gaps bucket_name satellite_name update_stac notification_url
       date_string E O = ([], Ok tt)) ∧
  report_gaps bucket_name satellite_name update_stac notification_url
    date_string ∅ ∅ = ([], Ok tt).
Proof.
  assert (∀ (missing_scenes : scenes) (orphaned_scenes : list string),
     len missing_scenes = 0 → List.length orphaned_scenes = 0 →
     emit_report bucket_name satellite_name update_stac notification_url
       date_string missing_scenes orphaned_scenes = ([], Ok tt)) as Hemit.
  { intros m o Hm Ho. unfold Landsat.emit_report, found, too_many.
    rewrite Hm, Ho. simpl. by rewrite andb_false_r. }
  split; [|split].
  - intros m o Hm Ho. split; [by apply Hemit|].
    unfold Landsat.message, report_output, output_filename, found.
    by rewrite Hm, Ho.
  - intros E O Hm Ho. unfold Landsat.report_gaps.
    destruct (missing_and_orphaned bucket_name update_stac E O) as [m o].
    by apply Hemit.
  - unfold Landsat.report_gaps.
    destruct (missing_and_orphaned bucket_name update_stac ∅ ∅) as [m o] eqn:H.
    apply Hemit.
    + destruct update_stac; inversion H; reflexivity.
    + destruct update_stac; inversion H; reflexivity.
Qed.
End report_properties.

Section report_instances.
Import PyStr Landsat Samples.


Lemma empty_diff_writes_nothing_witness :
  len (SceneSet ∅) = 0 ∧
  emit_report join id "deafrica-landsat-dev" "landsat_8" true None
    "2021-03-04" (SceneSet ∅) [] = ([], Ok tt) ∧
  report_output join "deafrica-landsat-dev" "landsat_8" true "2021-03-04"
    (SceneSet ∅) [] = "No missing scenes were found" ∧
  report_gaps join id "deafrica-landsat-dev" "landsat_8" false None
    "2021-03-04" {["b/"]} {["b/"]} = ([], Ok tt).
Proof.
  destruct (empty_diff_writes_nothing join id "deafrica-landsat-dev"
              "landsat_8" "2021-03-04" true None) as (Hemit & _).
  destruct (empty_diff_writes_nothing join id "deafrica-landsat-dev"
              "landsat_8" "2021-03-04" false None) as (_ & Hgaps & _).
  assert (len (SceneSet ∅) = 0) as Hlen by (vm_compute; reflexivity).
  destruct (Hemit (SceneSet ∅) [] Hlen eq_refl) as (Hnone & Hout & _).
  split; [exact Hlen|]. split; [exact Hnone|]. split; [exact Hout|].
  apply Hgaps; vm_compute; reflexivity.
Defined.
End report_instances.

(** ** The CHIRPS downloader *)

Section chirps_properties.
Import PyStr Chirps.

Variable raster : Type.
Variable odc_uuid : string → string → list string → string.

Local Abbreviation bucket := (gmap string (s3_object raster)).

Lemma in_file_name year month day s3_monthly_dst s3_daily_dst daily :
  in_file (set_up_file_strings year month day s3_monthly_dst s3_daily_dst daily)
  = source_file_name year month day daily.
Proof. by destruct daily. Qed.

(** Every item the function builds has the identifier [odc_uuid] gives
    for the source file. *)
Lemma create_stac_item_id now year month day daily f item :
  create_stac_item odc_uuid now year month day daily f = Ok item →
  item_id item = odc_uuid "chirps" "2.0" [in_file f].
Proof.
  unfold create_stac_item. destruct daily.
  - destruct (int year) as [y|]; simpl; [|done].
    destruct (int month) as [m|]; simpl; [|done].
    destruct (int day) as [d|]; simpl; [|done].
    destruct (datetime y m d) as [dt|]; simpl; [|done].
    by intros [= <-].
  - destruct (int year) as [y|]; simpl; [|done].
    destruct (int month) as [m|]; simpl; [|done].
    destruct (monthrange y m) as [last|]; simpl; [|done].
    destruct (datetime y m 15) as [dt|]; simpl; [|done].
    by intros [= <-].
Qed.

(** Every way through the function, in one statement: the existence check
    raises; it finds the item; or the conversion is made, and then the run
    fails before anything is written, fails after the raster is written, or
    writes both objects. *)
Lemma download_and_cog_chirps_cases cog_translate str_exn now raising
    year month day s3_monthly_dst s3_daily_dst overwrite daily slack_url
    (s3 : bucket) :
  let f := set_up_file_strings year month day s3_monthly_dst s3_daily_dst
             daily in
  let run := download_and_cog_chirps raster cog_translate odc_uuid str_exn now
               raising year month day s3_monthly_dst s3_daily_dst overwrite
               daily slack_url s3 in
  (overwrite = false ∧
   ∃ e, head_fault raising (out_stac f) = Some e ∧
        run = failed raster str_exn slack_url [] s3 f e) ∨
  (overwrite = false ∧ head_fault raising (out_stac f) = None ∧
   is_Some (s3 !! out_stac f) ∧
   run = {| events := []; s3_after := s3; result_of := Returned |}) ∨
  ((overwrite = true ∨
    (head_fault raising (out_stac f) = None ∧ s3 !! out_stac f = None)) ∧
   ((∃ e,
       (cog_translate (in_data f) = Raise e ∨
        create_stac_item odc_uuid now year month day daily f = Raise e ∨
        ∃ item, create_stac_item odc_uuid now year month day daily f = Ok item ∧
                (item_fault raising item = Some e ∨
                 dump_fault raising (out_data f) = Some e)) ∧
       run = failed raster str_exn slack_url
               [CogTranslate raster (in_data f)] s3 f e) ∨
    (∃ cog item e,
       cog_translate (in_data f) = Ok cog ∧
       create_stac_item odc_uuid now year month day daily f = Ok item ∧
       (json_fault raising item = Some e ∨
        dump_fault raising (out_stac f) = Some e) ∧
       run = failed raster str_exn slack_url
               [CogTranslate raster (in_data f);
                S3Dump raster (Cog raster cog) (out_data f)]
               (<[out_data f := Cog raster cog]> s3) f e) ∨
    (∃ cog item,
       cog_translate (in_data f) = Ok cog ∧
       create_stac_item odc_uuid now year month day daily f = Ok item ∧
       run = {| events := [CogTranslate raster (in_data f);
                           S3Dump raster (Cog raster cog) (out_data f);
                           S3Dump raster (StacJson raster item) (out_stac f)];
                s3_after := <[out_stac f := StacJson raster item]>
                              (<[out_data f := Cog raster cog]> s3);
                result_of := Returned |}))).
Proof.
  intros f run. subst run. unfold download_and_cog_chirps. fold f.
  assert (∀ fresh : overwrite = true ∨
                    (head_fault raising (out_stac f) = None ∧
                     s3 !! out_stac f = None),
            let rest :=
              match cog_translate (in_data f) with
              | Raise e =>
                  failed raster str_exn slack_url
                    [CogTranslate raster (in_data f)] s3 f e
              | Ok cog =>
                  match item_for odc_uuid now raising year month day daily f with
                  | Raise e =>
                      failed raster str_exn slack_url
                        [CogTranslate raster (in_data f)] s3 f e
                  | Ok item =>
                      match raise_if (dump_fault raising (out_data f)) with
                      | Raise e =>
                          failed raster str_exn slack_url
                            [CogTranslate raster (in_data f)] s3 f e
                      | Ok _ =>
                          match dump_item raising f item with
                          | Raise e =>
                              failed raster str_exn slack_url
                                [CogTranslate raster (in_data f);
                                 S3Dump raster (Cog raster cog) (out_data f)]
                                (<[out_data f := Cog raster cog]> s3) f e
                          | Ok _ =>
                              {| events :=
                                   [CogTranslate raster (in_data f);
                                    S3Dump raster (Cog raster cog) (out_data f);
                                    S3Dump raster (StacJson raster item)
                                      (out_stac f)];
                                 s3_after :=
                                   <[out_stac f := StacJson raster item]>
                                     (<[out_data f := Cog raster cog]> s3);
                                 result_of := Returned |}
                          end
                      end
                  end
              end in
            (∃ e,
               (cog_translate (in_data f) = Raise e ∨
                create_stac_item odc_uuid now year month day daily f = Raise e ∨
                ∃ item,
                  create_stac_item odc_uuid now year month day daily f = Ok item ∧
                  (item_fault raising item = Some e ∨
                   dump_fault raising (out_data f) = Some e)) ∧
               rest = failed raster str_exn slack_url
                        [CogTranslate raster (in_data f)] s3 f e) ∨
            (∃ cog item e,
               cog_translate (in_data f) = Ok cog ∧
               create_stac_item odc_uuid now year month day daily f = Ok item ∧
               (json_fault raising item = Some e ∨
                dump_fault raising (out_stac f) = Some e) ∧
               rest = failed raster str_exn slack_url
                        [CogTranslate raster (in_data f);
                         S3Dump raster (Cog raster cog) (out_data f)]
                        (<[out_data f := Cog raster cog]> s3) f e) ∨
            (∃ cog item,
               cog_translate (in_data f) = Ok cog ∧
               create_stac_item odc_uuid now year month day daily f = Ok item ∧
               rest = {| events :=
                           [CogTranslate raster (in_data f);
                            S3Dump raster (Cog raster cog) (out_data f);
                            S3Dump raster (StacJson raster item) (out_stac f)];
                         s3_after := <[out_stac f := StacJson raster item]>
                                       (<[out_data f := Cog raster cog]> s3);
                         result_of := Returned |})) as Hrest.
  { intros _ rest. subst rest. unfold item_for, dump_item, raise_if.
    destruct (cog_translate (in_data f)) as [cog|e]; [|left; eauto].
    destruct (create_stac_item odc_uuid now year month day daily f)
      as [item|e]; simpl; [|left; eauto].
    destruct (item_fault raising item) as [e|] eqn:Hitem; simpl;
      [left; eauto 10|].
    destruct (dump_fault raising (out_data f)) as [e|] eqn:Hdata; simpl;
      [left; eauto 10|].
    destruct (json_fault raising item) as [e|] eqn:Hjson; simpl;
      [right; left; eauto 10|].
    destruct (dump_fault raising (out_stac f)) as [e|] eqn:Hstac; simpl;
      [right; left; eauto 10|].
    right; right; eauto. }
  unfold already_there, raise_if, s3_head_object.
  destruct overwrite; simpl.
  { right; right. split; [by left|]. apply Hrest. by left. }
  destruct (head_fault raising (out_stac f)) as [e|] eqn:Hhead; simpl.
  { left. eauto. }
  case_bool_decide as Hs3.
  { right; left. done. }
  assert (s3 !! out_stac f = None) as Hnone.
  { destruct (s3 !! out_stac f) eqn:H; [|done]. exfalso. apply Hs3. by eexists. }
  right; right. split; [by right|]. apply Hrest. by right.
Qed.

Lemma dump_in_failed str_exn slack_url done (s3 : bucket) f e data url :
  S3Dump raster data url ∈
    events raster (failed raster str_exn slack_url done s3 f e) →
  S3Dump raster data url ∈ done.
Proof.
  unfold failed; simpl. rewrite elem_of_app. intros [H|H]; [done|].
  destruct slack_url; [|by apply elem_of_nil in H].
  apply list_elem_of_singleton in H. discriminate H.
Qed.

(** The only STAC document a run sends to S3 is the item it built, and it
    sends it to [out_stac]. *)
Lemma dumped_item cog_translate str_exn now raising year month day
    s3_monthly_dst s3_daily_dst overwrite daily slack_url (s3 : bucket)
    item url :
  S3Dump raster (StacJson raster item) url ∈
    events raster
      (download_and_cog_chirps raster cog_translate odc_uuid str_exn now
         raising year month day s3_monthly_dst s3_daily_dst overwrite daily
         slack_url s3) →
  let f := set_up_file_strings year month day s3_monthly_dst s3_daily_dst
             daily in
  create_stac_item odc_uuid now year month day daily f = Ok item ∧
  url = out_stac f.
Proof.
  intros Hin f.
  pose proof (download_and_cog_chirps_cases cog_translate str_exn now raising
                year month day s3_monthly_dst s3_daily_dst overwrite daily
                slack_url s3) as Hcases.
  cbv zeta in Hcases. fold f in Hcases.
  destruct Hcases
    as [(_ & e & _ & Hrun) | [(_ & _ & _ & Hrun) |
        (_ & [(e & _ & Hrun) | [(cog & it & e & _ & _ & _ & Hrun) |
                                (cog & it & _ & Hit & Hrun)]])]];
    rewrite Hrun in Hin.
  - by apply dump_in_failed, elem_of_nil in Hin.
  - by apply elem_of_nil in Hin.
  - apply dump_in_failed, list_elem_of_singleton in Hin. discriminate Hin.
  - apply dump_in_failed in Hin. rewrite !elem_of_cons, elem_of_nil in Hin.
    destruct Hin as [H|[H|[]]]; discriminate H.
  - simpl in Hin. rewrite !elem_of_cons, elem_of_nil in Hin.
    destruct Hin as [H|[H|[H|[]]]]; try discriminate H.
    injection H as -> ->. done.
Qed.

(** C8. With [overwrite=False], a run that finds the STAC document at its
    destination converts nothing and writes nothing, and returns at once
    when the existence check answers. So a second run with the same
    parameters, after a first one that returned, does nothing; and when the
    document was not there before the first run, the two runs together
    convert once. *)
Theorem existing_stac_is_skipped
    (cog_translate : string → result raster) (str_exn : exn → string)
    (now : string) (raising : faults)
    (year month day s3_monthly_dst s3_daily_dst : string) (daily : bool)
    (slack_url : option string) (s3 : bucket) :
  let f := set_up_file_strings year month day s3_monthly_dst s3_daily_dst
             daily in
  let run_from :=
    download_and_cog_chirps raster cog_translate odc_uuid str_exn now raising
      year month day s3_monthly_dst s3_daily_dst false daily slack_url in
  let first := run_from s3 in
  let second := run_from (s3_after raster first) in
  (is_Some (s3 !! out_stac f) →
   conversions raster (events raster first) = 0 ∧
   s3_after raster first = s3 ∧
   (head_fault raising (out_stac f) = None →
    first = {| events := []; s3_after := s3; result_of := Returned |})) ∧
  (result_of raster first = Returned →
   second = {| events := []; s3_after := s3_after raster first;
               result_of := Returned |}) ∧
  (s3 !! out_stac f = None → result_of raster first = Returned →
   conversions raster (events raster first ++ events raster second) = 1).
Proof.
  intros f run_from first second.
  assert (∀ b : bucket,
            (head_fault raising (out_stac f) = None → is_Some (b !! out_stac f) →
             run_from b = {| events := []; s3_after := b;
                             result_of := Returned |}) ∧
            (is_Some (b !! out_stac f) →
             conversions raster (events raster (run_from b)) = 0 ∧
             s3_after raster (run_from b) = b) ∧
            (result_of raster (run_from b) = Returned →
             head_fault raising (out_stac f) = None ∧
             is_Some (s3_after raster (run_from b) !! out_stac f)) ∧
            (b !! out_stac f = None → result_of raster (run_from b) = Returned →
             conversions raster (events raster (run_from b)) = 1)) as Hrun.
  { intros b.
    pose proof (download_and_cog_chirps_cases cog_translate str_exn now raising
                  year month day s3_monthly_dst s3_daily_dst false daily
                  slack_url b) as Hcases.
    cbv zeta in Hcases. fold f in Hcases. fold (run_from b) in Hcases.
    destruct Hcases
      as [(_ & e & Hhead & Hrun) | [(_ & Hhead & Hthere & Hrun) |
          ([?|[Hhead Hnone]] & [(e & _ & Hrun) |
             [(cog & it & e & _ & _ & _ & Hrun) |
              (cog & it & _ & _ & Hrun)]])]];
      try done; rewrite Hrun; unfold failed; simpl.
    - split; [congruence|]. split; [by destruct slack_url|]. done.
    - split; [done|]. split; [done|]. split; [done|].
      intros Hnone. rewrite Hnone in Hthere. by destruct Hthere.
    - rewrite Hnone. split; [by intros _ [? ?]|]. split; [by intros [? ?]|].
      done.
    - rewrite Hnone. split; [by intros _ [? ?]|]. split; [by intros [? ?]|].
      done.
    - rewrite Hnone. split; [by intros _ [? ?]|]. split; [by intros [? ?]|].
      split; [|done]. intros _. split; [done|].
      rewrite lookup_insert_eq. by eexists. }
  split; [|split].
  - intros Hthere. destruct (Hrun s3) as (Hskip & Hnothing & _).
    destruct (Hnothing Hthere) as [? ?]. auto.
  - intros Hret. destruct (Hrun s3) as (_ & _ & Hthere & _).
    destruct (Hthere Hret) as [Hhead Hstac].
    destruct (Hrun (s3_after raster first)) as (Hskip & _). by apply Hskip.
  - intros Hnone Hret. destruct (Hrun s3) as (_ & _ & Hthere & Honce).
    destruct (Hthere Hret) as [Hhead Hstac].
    destruct (Hrun (s3_after raster first)) as (Hskip & _).
    unfold second. rewrite (Hskip Hhead Hstac). simpl. rewrite app_nil_r.
    by apply Honce.
Qed.

(** C9. The identifier of the STAC document a run sends to S3 is what
    [odc_uuid] gives for the name "chirps", the version "2.0" and the name
    of the source file, which the date and the granularity fix: two runs
    for the same year, month, day and granularity give their documents the
    same identifier, whatever else differs between them. *)
Theorem stac_id_is_deterministic
    (year month day : string) (daily : bool)
    (cog1 cog2 : string → result raster) (str1 str2 : exn → string)
    (raising1 raising2 : faults)
    (now1 now2 monthly_dst1 monthly_dst2 daily_dst1 daily_dst2 : string)
    (overwrite1 overwrite2 : bool) (slack1 slack2 : option string)
    (s3_1 s3_2 : bucket) (item1 item2 : stac_item) (url1 url2 : string) :
  S3Dump raster (StacJson raster item1) url1 ∈
    events raster
      (download_and_cog_chirps raster cog1 odc_uuid str1 now1 raising1 year
         month day monthly_dst1 daily_dst1 overwrite1 daily slack1 s3_1) →
  S3Dump raster (StacJson raster item2) url2 ∈
    events raster
      (download_and_cog_chirps raster cog2 odc_uuid str2 now2 raising2 year
         month day monthly_dst2 daily_dst2 overwrite2 daily slack2 s3_2) →
  item_id item1 =
    odc_uuid "chirps" "2.0" [source_file_name year month day daily] ∧
  item_id item2 = item_id item1.
Proof.
  intros [H1 _]%dumped_item [H2 _]%dumped_item.
  apply create_stac_item_id in H1, H2.
  rewrite in_file_name in H1, H2. by rewrite H1, H2.
Qed.
End chirps_properties.

Section chirps_instances.
Import PyStr Chirps Samples.

Lemma existing_stac_is_skipped_witness :
  let run_from :=
    download_and_cog_chirps string sample_cog sample_uuid sample_str
      "2021-06-01T00:00:00Z" no_faults "2020" "01" "01"
      "s3://rainfall/monthly/" "s3://rainfall/daily/" false false None in
  (∅ : gmap string (s3_object string))
    !! "s3://rainfall/monthly/chirps-v2.0_2020.01.stac-item.json" = None ∧
  result_of string (run_from ∅) = Returned ∧
  conversions string
    (events string (run_from ∅)
     ++ events string (run_from (s3_after string (run_from ∅)))) = 1 ∧
  run_from (s3_after string (run_from ∅)) =
  {| events := []; s3_after := s3_after string (run_from ∅);
     result_of := Returned |}.
Proof.
  intros run_from.
  pose proof (existing_stac_is_skipped string sample_uuid sample_cog
                sample_str "2021-06-01T00:00:00Z" no_faults "2020" "01" "01"
                "s3://rainfall/monthly/" "s3://rainfall/daily/" false None ∅)
    as H.
  cbv zeta in H. destruct H as (_ & Hsecond & Honce).
  assert (result_of string (run_from ∅) = Returned) as Hret
    by (vm_compute; reflexivity).
  split; [reflexivity|]. split; [exact Hret|].
  split; [apply Honce; [reflexivity | exact Hret] | exact (Hsecond Hret)].
Defined.

Lemma stac_id_is_deterministic_witness :
  item_id (january_item "2021-06-01T00:00:00Z" "s3://rainfall/monthly") =
    sample_uuid "chirps" "2.0" ["chirps-v2.0.2020.01.tif.gz"] ∧
  item_id (january_item "2022-02-02T12:00:00Z" "s3://other") =
    item_id (january_item "2021-06-01T00:00:00Z" "s3://rainfall/monthly").
Proof.
  apply (stac_id_is_deterministic string sample_uuid "2020" "01" "01" false
           sample_cog sample_cog sample_str sample_str no_faults no_faults
           "2021-06-01T00:00:00Z" "2022-02-02T12:00:00Z"
           "s3://rainfall/monthly/" "s3://other" "s3://rainfall/daily/"
           "s3://other-daily" false true None (Some "https://hooks.example")
           ∅ ∅ _ _
           "s3://rainfall/monthly/chirps-v2.0_2020.01.stac-item.json"
           "s3://other/chirps-v2.0_2020.01.stac-item.json").
  - apply list_elem_of_In. vm_compute. do 2 right. left. reflexivity.
  - apply list_elem_of_In. vm_compute. do 2 right. left. reflexivity.
Defined.
End chirps_instances.

(** ** More on the keys of the two sides *)

Section key_properties.
Import PyStr Landsat Keys.

Lemma prefix_append (a b : string) : String.prefix a (a +:+ b) = true.
Proof.
  induction a as [|c a IH]; simpl; [by destruct b|].
  destruct (ascii_dec c c); [exact IH | done].
Qed.

Lemma ends_with_slash_append (a b : string) :
  ends_with_slash b = true → ends_with_slash (a +:+ b) = true.
Proof.
  intros Hb. induction a as [|c a IH]; simpl; [done|].
  destruct (a +:+ b) as [|c' s] eqn:Hab; [|done].
  destruct a as [|c' a]; [|done]. change (b = "") in Hab. by rewrite Hab in Hb.
Qed.

Lemma ends_with_slash_snoc (a : string) : ends_with_slash (a +:+ "/") = true.
Proof. by apply ends_with_slash_append. Qed.

Lemma before_last_slash_none (f : string) :
  no_slash f = true → before_last_slash f = None.
Proof.
  induction f as [|c f IH]; simpl; [done|].
  intros [Hc Hf]%andb_prop. rewrite (IH Hf).
  by destruct (Ascii.eqb c "/").
Qed.

(** Splitting at the last slash undoes joining a directory and a file
    name. *)
Lemma rsplit_slash_head_join (d f : string) :
  no_slash f = true → rsplit_slash_head (d +:+ "/" +:+ f) = d.
Proof.
  intros Hf. unfold rsplit_slash_head.
  assert (before_last_slash (d +:+ "/" +:+ f) = Some d) as ->; [|done].
  induction d as [|c d IH]; simpl.
  - by rewrite before_last_slash_none.
  - by rewrite IH.
Qed.

Lemma rsplit_slash_head_no_slash (f : string) :
  no_slash f = true → rsplit_slash_head f = f.
Proof. intros Hf. unfold rsplit_slash_head. by rewrite before_last_slash_none. Qed.

(** X1. The inventory is listed for the three satellites the function
    names, with their own product prefix, and for no other name: any other
    name, a different case included, raises. *)
Theorem supported_satellites
    (list_inventory : string → string → string → string → list string)
    (landsat : string) :
  ((∃ keys, get_and_filter_keys list_inventory landsat = Ok keys) ↔
   landsat = "landsat_8" ∨ landsat = "landsat_7" ∨ landsat = "landsat_5") ∧
  (landsat ≠ "landsat_8" → landsat ≠ "landsat_7" → landsat ≠ "landsat_5" →
   get_and_filter_keys list_inventory landsat =
   Raise (Exception ("Informed satellite " +:+ landsat +:+ " not supported"))) ∧
  sat_prefix "landsat_8" = Some "LC08" ∧ sat_prefix "landsat_7" = Some "LE07" ∧
  sat_prefix "landsat_5" = Some "LT05" ∧ sat_prefix "LANDSAT_8" = None.
Proof.
  unfold get_and_filter_keys, sat_prefix.
  split; [|split; [|done]].
  - destruct (String.eqb_spec landsat "landsat_8") as [->|H8];
      [split; [auto | by eexists]|].
    destruct (String.eqb_spec landsat "landsat_7") as [->|H7];
      [split; [auto | by eexists]|].
    destruct (String.eqb_spec landsat "landsat_5") as [->|H5];
      [split; [auto | by eexists]|].
    split; [by intros [keys ?] | by intros [|[|]]].
  - intros H8 H7 H5.
    apply String.eqb_neq in H8, H7, H5. by rewrite H8, H7, H5.
Qed.

(** X2. For a supported satellite the observed keys are exactly the
    directories of the listed objects, each with a final slash: an object
    [d/f] gives the key [d/], and an object whose name has no slash gives
    its own name and a slash. *)
Theorem observed_keys_are_directories
    (list_inventory : string → string → string → string → list string)
    (landsat product : string) :
  sat_prefix landsat = Some product →
  let listed :=
    list_inventory LANDSAT_INVENTORY_PATH "collection02" "_stac.json" product in
  ∃ keys,
    get_and_filter_keys list_inventory landsat = Ok keys ∧
    (∀ k, k ∈ keys ↔ ∃ object, object ∈ listed ∧
                       k = rsplit_slash_head object +:+ "/") ∧
    (∀ k, k ∈ keys → ends_with_slash k = true) ∧
    (∀ d f, no_slash f = true → (d +:+ "/" +:+ f) ∈ listed → (d +:+ "/") ∈ keys) ∧
    (∀ f, no_slash f = true → f ∈ listed → (f +:+ "/") ∈ keys).
Proof.
  intros Hp listed. unfold get_and_filter_keys. rewrite Hp. fold listed.
  eexists. split; [done|].
  assert (∀ k, k ∈ (list_to_set ((λ key, rsplit_slash_head key +:+ "/")
                                  <$> listed) : gset string) ↔
               ∃ object, object ∈ listed ∧ k = rsplit_slash_head object +:+ "/")
    as Hkeys.
  { intros k. rewrite elem_of_list_to_set, list_elem_of_fmap.
    split; [intros (x & -> & Hx) | intros (x & Hx & ->)]; eauto. }
  split; [exact Hkeys|]. split; [|split].
  - intros k (object & _ & ->)%Hkeys. apply ends_with_slash_snoc.
  - intros d f Hf Hin. apply Hkeys. exists (d +:+ "/" +:+ f).
    split; [done|]. by rewrite rsplit_slash_head_join.
  - intros f Hf Hin. apply Hkeys. exists f.
    split; [done|]. by rewrite rsplit_slash_head_no_slash.
Qed.
End key_properties.

Section expected_key_properties.
Import PyStr Landsat Keys.

Variable convert_str_to_date : option string → result date.
Variable africa_pathrows : gset Z.

Local Abbreviation build_path := (build_path convert_str_to_date).
Local Abbreviation row_filter := (row_filter africa_pathrows).
Local Abbreviation get_and_filter_keys_from_files :=
  (get_and_filter_keys_from_files convert_str_to_date africa_pathrows).

(** A row is sound when the condition rejects it, or accepts it and its
    key can be built. *)
Local Abbreviation sound_row r :=
  (row_filter r = Ok false ∨ (row_filter r = Ok true ∧ ∃ k, build_path r = Ok k)).

(** The comprehension returns exactly when every row is sound, and then
    its keys are the keys of the accepted rows. *)
Lemma keys_of_sound_rows (rows : list row) :
  (∀ r, r ∈ rows → sound_row r) →
  ∃ keys, get_and_filter_keys_from_files rows = Ok keys ∧
          ∀ k, k ∈ keys ↔
               ∃ r, r ∈ rows ∧ row_filter r = Ok true ∧ build_path r = Ok k.
Proof.
  induction rows as [|r rows IH]; intros Hsound; simpl.
  { exists ∅. split; [done|]. intros k. split; [set_solver|].
    by intros (r & ?%elem_of_nil & _). }
  destruct IH as (keys & Hkeys & Hspec).
  { intros r' Hr'. apply Hsound, elem_of_cons. by right. }
  rewrite Hkeys.
  destruct (Hsound r) as [Hr | (Hr & k0 & Hk0)]; [apply elem_of_cons; by left|..];
    rewrite Hr; simpl.
  - exists keys. split; [done|]. intros k. rewrite Hspec. split.
    + intros (r' & Hin & H). exists r'. split; [|done].
      apply elem_of_cons. by right.
    + intros (r' & [->|Hin]%elem_of_cons & Hf & Hb); [congruence|]. by exists r'.
  - rewrite Hk0. simpl. exists ({[k0]} ∪ keys). split; [done|].
    intros k. rewrite elem_of_union, elem_of_singleton, Hspec. split.
    + intros [->|(r' & Hin & H)].
      * exists r. split; [apply elem_of_cons; by left | done].
      * exists r'. split; [apply elem_of_cons; by right | done].
    + intros (r' & [->|Hin]%elem_of_cons & Hf & Hb).
      * left. congruence.
      * right. by exists r'.
Qed.

Lemma sound_rows_of_keys (rows : list row) keys :
  get_and_filter_keys_from_files rows = Ok keys → ∀ r, r ∈ rows → sound_row r.
Proof.
  revert keys. induction rows as [|r rows IH]; intros keys Hkeys r' Hin.
  { by apply elem_of_nil in Hin. }
  simpl in Hkeys.
  destruct (row_filter r) as [[]|e] eqn:Hr; simpl in Hkeys; [| |done].
  - destruct (build_path r) as [k|e] eqn:Hk; simpl in Hkeys; [|done].
    destruct (get_and_filter_keys_from_files rows) as [keys'|e] eqn:Hrest;
      [|done].
    apply elem_of_cons in Hin as [->|Hin]; [right; eauto|].
    by apply (IH keys').
  - apply elem_of_cons in Hin as [->|Hin]; [by left|]. by apply (IH keys).
Qed.

Lemma build_path_shape (r : row) k :
  build_path r = Ok k →
  String.prefix "collection02/level-2/standard/" k = true ∧
  ends_with_slash k = true.
Proof.
  unfold Landsat.build_path, getitem, method.
  destruct (r !! "Sensor Identifier") as [[s|]|]; simpl; [|done..].
  destruct (r !! "Date Acquired") as [a|]; simpl; [|done].
  destruct (convert_str_to_date a) as [d|]; simpl; [|done].
  destruct (r !! "WRS Path") as [[p|]|]; simpl; [|done..].
  destruct (r !! "WRS Row") as [[q|]|]; simpl; [|done..].
  destruct (r !! "Display ID") as [i|]; simpl; [|done].
  intros [= <-]. split; [apply prefix_append|].
  do 9 apply ends_with_slash_append. apply ends_with_slash_snoc.
Qed.

(** X3. Every expected key starts with the prefix under which the
    inventory is listed and ends with a slash, as the observed keys do. *)
Theorem expected_keys_shape (rows : list row) (keys : gset string) :
  get_and_filter_keys_from_files rows = Ok keys →
  ∀ k, k ∈ keys →
    String.prefix "collection02/level-2/standard/" k = true ∧
    ends_with_slash k = true.
Proof.
  intros Hkeys k Hk.
  destruct (keys_of_sound_rows rows (sound_rows_of_keys rows keys Hkeys))
    as (keys' & Hkeys' & Hspec).
  assert (keys' = keys) as -> by congruence.
  apply Hspec in Hk as (r & _ & _ & Hb). by apply build_path_shape in Hb.
Qed.

(** X4. The expected keys depend on which rows the file holds, not on
    their order or on how often a row is repeated. *)
Theorem expected_keys_ignore_order (rows rows' : list row) (keys : gset string) :
  (∀ r, r ∈ rows ↔ r ∈ rows') →
  get_and_filter_keys_from_files rows = Ok keys →
  get_and_filter_keys_from_files rows' = Ok keys.
Proof.
  intros Hsame Hkeys.
  pose proof (sound_rows_of_keys rows keys Hkeys) as Hsound.
  destruct (keys_of_sound_rows rows Hsound) as (keys1 & Hkeys1 & Hspec1).
  assert (keys1 = keys) as -> by congruence.
  destruct (keys_of_sound_rows rows') as (keys2 & Hkeys2 & Hspec2).
  { intros r Hr. apply Hsound, Hsame, Hr. }
  rewrite Hkeys2. f_equal. apply set_eq. intros k.
  rewrite Hspec1, Hspec2. split; intros (r & Hin & H); exists r;
    (split; [by apply Hsame | done]).
Qed.

Lemma raising_filter rows (r : row) :
  r ∈ rows → raises (row_filter r) →
  raises (get_and_filter_keys_from_files rows).
Proof.
  intros Hin [e He].
  induction rows as [|r' rows IH]; [by apply elem_of_nil in Hin|].
  simpl. destruct (row_filter r') as [[]|e'] eqn:Hr'; simpl.
  - destruct (build_path r') as [key|e'] eqn:Hb; simpl; [|by eexists].
    apply elem_of_cons in Hin as [->|Hin]; [congruence|].
    destruct (IH Hin) as [e'' ->]. by eexists.
  - apply elem_of_cons in Hin as [->|Hin]; [congruence|]. by apply IH.
  - by eexists.
Qed.

(** X5. A daytime row of a wanted satellite whose WRS path and row do not
    read as a number is not dropped: [int] raises [ValueError], and the
    whole bulk file is then rejected with it. *)
Theorem unreadable_grid_cell_raises (r : row) (s d p q : string) :
  get r "Satellite" = Some s → s ≠ "LANDSAT_4" → s ≠ "4" →
  get r "Day/Night Indicator" = Some d → upper d = "DAY" →
  get r "WRS Path" = Some p → get r "WRS Row" = Some q →
  raises (int (zfill 3 p +:+ zfill 3 q)) →
  row_filter r = Raise ValueError ∧
  ∀ rows, r ∈ rows → raises (get_and_filter_keys_from_files rows).
Proof.
  intros Hs H4 H4' Hd Hday Hp Hq [e He].
  assert (e = ValueError) as ->.
  { unfold int in He. case_match; congruence. }
  assert (row_filter r = Raise ValueError) as Hr.
  { rewrite row_filter_get, just_africa_get, Hs, Hd, Hp, Hq, Hday, He.
    apply String.eqb_neq in H4, H4'. by rewrite H4, H4'. }
  split; [done|]. intros rows Hin. eapply raising_filter; [done|].
  by eexists.
Qed.
End expected_key_properties.

(** ** The number of a grid cell *)

Section grid_cell_number.
Import PyStr Landsat.
Local Open Scope Z_scope.

Ltac by_cases_on_digit c :=
  destruct c as [[] [] [] [] [] [] [] []]; intros H; try discriminate H;
  vm_compute; repeat split; congruence.

Lemma digit_not_space c : is_digit c = true → is_space c = false.
Proof. by_cases_on_digit c. Qed.

Lemma digit_not_sign c :
  is_digit c = true →
  Ascii.eqb c "-" = false ∧ Ascii.eqb c "+" = false.
Proof. by_cases_on_digit c. Qed.

Lemma digit_val_bound c : is_digit c = true → 0 ≤ digit_val c ≤ 9.
Proof. by_cases_on_digit c. Qed.

Lemma all_digits_list s :
  all_digits s = forallb is_digit (list_ascii_of_string s).
Proof. induction s as [|c s IH]; simpl; [done|]. by rewrite IH. Qed.

Lemma list_ascii_of_append s t :
  list_ascii_of_string (s +:+ t)
  = list_ascii_of_string s ++ list_ascii_of_string t.
Proof. induction s as [|c s IH]; simpl; [done|]. by rewrite IH. Qed.

Lemma lstrip_digits l : forallb is_digit l = true → lstrip l = l.
Proof.
  destruct l as [|c l]; simpl; [done|].
  intros [Hc _]%andb_prop. by rewrite (digit_not_space c Hc).
Qed.

Lemma forallb_rev {A} (f : A → bool) l :
  forallb f l = true → forallb f (rev l) = true.
Proof.
  rewrite !forallb_forall. intros H x Hx. apply H. by apply in_rev.
Qed.

Lemma strip_digits l : forallb is_digit l = true → strip l = l.
Proof.
  intros Hl. unfold strip.
  rewrite (lstrip_digits l Hl), (lstrip_digits (rev l)) by by apply forallb_rev.
  apply rev_involutive.
Qed.

(** Reading digits shifts what was read and adds their value. *)
Lemma int_digits_value l :
  forallb is_digit l = true →
  ∃ v, 0 ≤ v < 10 ^ Z.of_nat (List.length l) ∧
       ∀ acc, int_digits acc l
              = Some (acc * 10 ^ Z.of_nat (List.length l) + v).
Proof.
  induction l as [|c l IH]; simpl List.length.
  { intros _. exists 0. split; [simpl; lia|]. intros acc. simpl. f_equal. lia. }
  simpl forallb. intros [Hc Hl]%andb_prop.
  destruct (IH Hl) as (v & Hv & Hread).
  pose proof (digit_val_bound c Hc) as Hd.
  rewrite Nat2Z.inj_succ, Z.pow_succ_r by lia.
  exists (digit_val c * 10 ^ Z.of_nat (List.length l) + v). split; [nia|].
  intros acc. simpl. rewrite Hc, Hread. f_equal. ring.
Qed.

Lemma int_digits_app acc l1 l2 :
  forallb is_digit l1 = true →
  int_digits acc (l1 ++ l2)
  = match int_digits acc l1 with
    | Some a => int_digits a l2
    | None => None
    end.
Proof.
  revert acc. induction l1 as [|c l1 IH]; intros acc; [done|].
  simpl forallb. intros [Hc Hl]%andb_prop. simpl. rewrite Hc. by apply IH.
Qed.

Lemma int_digits_zeros k acc :
  int_digits acc (list_ascii_of_string (zeros k)) = Some (acc * 10 ^ Z.of_nat k).
Proof.
  revert acc. induction k as [|k IH]; intros acc.
  { simpl. f_equal. lia. }
  change (int_digits (10 * acc + 0) (list_ascii_of_string (zeros k))
          = Some (acc * 10 ^ Z.of_nat (S k))).
  rewrite IH, Nat2Z.inj_succ, Z.pow_succ_r by lia. f_equal. ring.
Qed.

(** [int] on a text of digits reads the digits. *)
Lemma int_of_digits s v :
  all_digits s = true →
  int s = Ok v ↔
  s ≠ "" ∧ int_digits 0 (list_ascii_of_string s) = Some v.
Proof.
  intros Hs. rewrite all_digits_list in Hs. unfold int.
  rewrite (strip_digits _ Hs).
  destruct s as [|c s]; simpl list_ascii_of_string in *.
  { split; [done | by intros [? _]]. }
  simpl in Hs. apply andb_prop in Hs as [Hc Hs].
  destruct (digit_not_sign c Hc) as [-> ->].
  simpl. rewrite Hc. replace (10 * 0 + digit_val c) with (digit_val c) by lia.
  destruct (int_digits (digit_val c) (list_ascii_of_string s)) as [z|].
  - split; [intros [= ->]; done | intros [_ [= ->]]; done].
  - split; [done | by intros [_ ?]].
Qed.

Lemma append_empty (s : string) : s +:+ "" = s.
Proof.
  induction s as [|c s IH]; [done|].
  change (String c (s +:+ "") = String c s). by rewrite IH.
Qed.

Lemma zfill_digits w s :
  all_digits s = true → zfill w s = zeros (w - String.length s) +:+ s.
Proof.
  intros Hs. unfold zfill.
  destruct (Nat.leb_spec w (String.length s)) as [Hle|Hlt].
  { by replace (w - String.length s)%nat with 0%nat by lia. }
  destruct s as [|c s]; [by rewrite append_empty|].
  simpl in Hs. apply andb_prop in Hs as [Hc Hs].
  destruct (digit_not_sign c Hc) as [-> ->]. done.
Qed.

Lemma length_list_ascii s :
  List.length (list_ascii_of_string s) = String.length s.
Proof. induction s as [|c s IH]; simpl; congruence. Qed.

(** X6. For a WRS path and a WRS row written in digits, the row with no
    more than three of them, the number looked up in the allow-list is a
    thousand times the path plus the row, and the row is below a thousand:
    two cells have the same number only if they are the same cell. *)
Theorem grid_cell_number (p q : string) (P Q : Z) :
  all_digits p = true → all_digits q = true → (String.length q ≤ 3)%nat →
  int p = Ok P → int q = Ok Q →
  int (zfill 3 p +:+ zfill 3 q) = Ok (1000 * P + Q) ∧
  0 ≤ P ∧ 0 ≤ Q < 1000.
Proof.
  intros Dp Dq Hq HP HQ.
  apply int_of_digits in HP as [Hp0 HP]; [|done].
  apply int_of_digits in HQ as [Hq0 HQ]; [|done].
  pose proof Dp as Lp. pose proof Dq as Lq.
  rewrite all_digits_list in Lp, Lq.
  destruct (int_digits_value _ Lp) as (vp & Hvp & Rp).
  destruct (int_digits_value _ Lq) as (vq & Hvq & Rq).
  rewrite Rp in HP. rewrite Rq in HQ.
  assert (P = vp) as -> by (injection HP; lia).
  assert (Q = vq) as -> by (injection HQ; lia).
  rewrite length_list_ascii in Hvq, Rq.
  assert (10 ^ Z.of_nat (String.length q) ≤ 10 ^ 3) as Hpow
    by (apply Z.pow_le_mono_r; lia).
  split; [|lia].
  apply int_of_digits.
  { rewrite all_digits_append, !all_digits_zfill by done. done. }
  split.
  { intros H. apply (f_equal String.length) in H.
    rewrite length_append, !length_zfill in H. simpl in H. lia. }
  rewrite !zfill_digits, !list_ascii_of_append, <- app_assoc by done.
  rewrite int_digits_app, int_digits_zeros
    by (rewrite <- all_digits_list; apply all_digits_zeros).
  rewrite int_digits_app, Rp by done.
  rewrite int_digits_app, int_digits_zeros
    by (rewrite <- all_digits_list; apply all_digits_zeros).
  rewrite Rq. f_equal.
  replace (0 * 10 ^ Z.of_nat (3 - String.length p)
           * 10 ^ Z.of_nat (List.length (list_ascii_of_string p))) with 0 by lia.
  rewrite <- Z.mul_assoc, <- Z.pow_add_r by lia.
  replace (Z.of_nat (3 - String.length q) + Z.of_nat (String.length q)) with 3
    by lia.
  lia.
Qed.
End grid_cell_number.

(** ** More on the report *)

Section report_extra.
Import PyStr Landsat LandsatCli.

Variable url_div : string → string → string.
Variable dedent : string → string.

Local Abbreviation report_gaps := (report_gaps url_div dedent).
Local Abbreviation emit_report := (emit_report url_div dedent).
Local Abbreviation message := (message url_div dedent).

(** X7. Without a forced update nothing is sent anywhere exactly when the
    expected and the observed keys are the same set, and the run then
    returns. *)
Theorem in_sync_sends_nothing
    (bucket_name satellite_name date_string : string)
    (notification_url : option string) (E O : gset string) :
  let run := report_gaps bucket_name satellite_name false notification_url
               date_string E O in
  (run.1 = [] ↔ E = O) ∧ (E = O → run = ([], Ok tt)).
Proof.
  intros run.
  assert (E = O → run = ([], Ok tt)) as Hsync.
  { intros ->. subst run. unfold Landsat.report_gaps.
    rewrite missing_and_orphaned_diff. unfold Landsat.emit_report.
    rewrite found_diff, too_many_diff.
    rewrite difference_diag_L. done. }
  split; [|exact Hsync]. split; [|by intros ->%Hsync].
  subst run. unfold Landsat.report_gaps.
  rewrite missing_and_orphaned_diff. unfold Landsat.emit_report.
  rewrite found_diff, too_many_diff.
  destruct (Nat.ltb_spec 0 (size (E ∖ O))) as [Hm|Hm]; simpl.
  { by destruct ((200 <? size (E ∖ O)) || (200 <? size (O ∖ E))). }
  destruct (Nat.ltb_spec 0 (size (O ∖ E))) as [Ho|Ho]; simpl.
  { by destruct ((200 <? size (E ∖ O)) || (200 <? size (O ∖ E))). }
  intros _.
  assert (E ∖ O = ∅) as HEO by (apply leibniz_equiv, size_empty_iff; lia).
  assert (O ∖ E = ∅) as HOE by (apply leibniz_equiv, size_empty_iff; lia).
  apply set_eq. intros k. split; intros Hk.
  - destruct (decide (k ∈ O)); [done|]. set_solver.
  - destruct (decide (k ∈ E)); [done|]. set_solver.
Qed.

(** X8. A Slack notification is only ever sent when no update is forced
    and a URL was given, it is sent right after the report went to S3, it
    carries the message, and the run then raises the exception with the same
    message. *)
Theorem notification_follows_upload
    (bucket_name satellite_name date_string : string) (update_stac : bool)
    (notification_url : option string)
    (missing_scenes : scenes) (orphaned_scenes : list string)
    (url title text : string) :
  let run := emit_report bucket_name satellite_name update_stac
               notification_url date_string missing_scenes orphaned_scenes in
  SlackNotification url title text ∈ run.1 →
  update_stac = false ∧ notification_url = Some url ∧
  title = satellite_name +:+ " Gap Report" ∧
  text = message bucket_name satellite_name update_stac date_string
           missing_scenes orphaned_scenes ∧
  (∃ data target,
     run.1 = [S3Dump data target; SlackNotification url title text]) ∧
  run.2 = Raise (Exception ("More than 200 scenes were found " +:+ nl +:+ " "
                            +:+ text)).
Proof.
  intros run. subst run. unfold Landsat.emit_report.
  destruct (found missing_scenes orphaned_scenes) eqn:Hfound; simpl.
  - destruct (json_dumps orphaned_scenes missing_scenes) as [data|e]; simpl.
    2: { by intros ?%elem_of_nil. }
    destruct (too_many update_stac missing_scenes orphaned_scenes) eqn:Hmany;
      simpl.
    2: { rewrite elem_of_cons, elem_of_nil. by intros [|[]]. }
    destruct notification_url as [u|]; simpl.
    2: { rewrite elem_of_cons, elem_of_nil. by intros [|[]]. }
    rewrite !elem_of_cons, elem_of_nil. intros [H|[H|[]]]; [done|].
    injection H as -> -> ->.
    unfold too_many in Hmany. destruct update_stac; [done|].
    repeat split; eauto.
  - unfold found in Hfound. unfold too_many.
    apply orb_false_iff in Hfound as [Hm%Nat.ltb_ge Ho%Nat.ltb_ge].
    replace (200 <? len missing_scenes) with false
      by (symmetry; apply Nat.ltb_ge; lia).
    replace (200 <? List.length orphaned_scenes) with false
      by (symmetry; apply Nat.ltb_ge; lia).
    rewrite andb_false_r. simpl. by intros ?%elem_of_nil.
Qed.

(** X10. The table of bulk files and the test on the satellite name know
    the same three satellites. For any other name the command raises
    before anything is sent, whatever the download would give; and printing
    the version does not replace the run. *)
Theorem cli_unknown_satellite
    (date_string version_string : string)
    (convert_str_to_date : option string → result date)
    (africa_pathrows : gset Z)
    (list_inventory : string → string → string → string → list string)
    (downloaded_rows : string → option string → list row)
    (bucket_name satellite : string) (update_stac : bool)
    (slack_url : option string) :
  let run version :=
    cli url_div dedent date_string convert_str_to_date africa_pathrows
      list_inventory version_string downloaded_rows bucket_name satellite
      update_stac slack_url version in
  (dict_get FILES satellite = None ↔ sat_prefix satellite = None) ∧
  (dict_get FILES satellite = None →
   ∀ version,
     (run version).2 =
     ([], Raise (Exception ("Informed satellite " +:+ satellite
                            +:+ " not supported")))) ∧
  run true = ([version_string], (run false).2).
Proof.
  intros run.
  assert (dict_get FILES satellite = None ↔ sat_prefix satellite = None) as Hsame.
  { unfold dict_get, FILES, sat_prefix. rewrite !(String.eqb_sym _ satellite).
    destruct (String.eqb satellite "landsat_8"); [done|].
    destruct (String.eqb satellite "landsat_7"); [done|].
    by destruct (String.eqb satellite "landsat_5"). }
  split; [exact Hsame|]. split; [|done].
  intros Hnone%Hsame version. unfold run, cli, generate_buckets_diff,
    get_and_filter_keys. simpl. by rewrite Hnone.
Qed.
End report_extra.

(** ** More on the CHIRPS downloader *)

Section chirps_extra.
Import PyStr Chirps Keys.

Variable raster : Type.
Variable cog_translate : string → result raster.
Variable odc_uuid : string → string → list string → string.
Variable str_exn : exn → string.
Variable now : string.
Variable raising : faults.

Local Abbreviation bucket := (gmap string (s3_object raster)).
Local Abbreviation download_and_cog_chirps :=
  (download_and_cog_chirps raster cog_translate odc_uuid str_exn now raising).
Local Abbreviation create_stac_item := (create_stac_item odc_uuid now).
Local Abbreviation cases :=
  (download_and_cog_chirps_cases raster odc_uuid cog_translate str_exn now
     raising).

Lemma out_data_is_not_out_stac year month day s3_monthly_dst s3_daily_dst daily :
  let f := set_up_file_strings year month day s3_monthly_dst s3_daily_dst
             daily in
  out_data f ≠ out_stac f.
Proof.
  destruct daily; simpl; intros H;
    repeat (apply (inj (String.append _)) in H); discriminate H.
Qed.

Lemma rstrip_slash_snoc (s : string) : rstrip_slash (s +:+ "/") = rstrip_slash s.
Proof.
  induction s as [|c s IH]; [done|].
  change (rstrip_slash (String c (s +:+ "/")) = rstrip_slash (String c s)).
  simpl. by rewrite IH.
Qed.

Lemma rstrip_slash_end (s : string) : ends_with_slash (rstrip_slash s) = false.
Proof.
  induction s as [|c s IH]; [done|]. simpl.
  destruct (rstrip_slash s) as [|c' t] eqn:Hs.
  - destruct (Ascii.eqb c "/") eqn:Hc; [done|]. simpl. exact Hc.
  - exact IH.
Qed.

(** X11. A run that is not skipped and returns has converted the source
    and stored two objects under two different keys: the raster under
    [out_data] and the item under [out_stac], both readable afterwards. *)
Theorem completed_run_stores_both
    (year month day s3_monthly_dst s3_daily_dst : string)
    (overwrite daily : bool) (slack_url : option string) (s3 : bucket) :
  let f := set_up_file_strings year month day s3_monthly_dst s3_daily_dst
             daily in
  let run := download_and_cog_chirps year month day s3_monthly_dst
               s3_daily_dst overwrite daily slack_url s3 in
  overwrite = true ∨ s3 !! out_stac f = None →
  result_of raster run = Returned →
  out_data f ≠ out_stac f ∧
  ∃ cog item,
    cog_translate (in_data f) = Ok cog ∧
    create_stac_item year month day daily f = Ok item ∧
    s3_after raster run !! out_data f = Some (Cog raster cog) ∧
    s3_after raster run !! out_stac f = Some (StacJson raster item).
Proof.
  intros f run Hfresh Hret.
  pose proof (out_data_is_not_out_stac year month day s3_monthly_dst
                s3_daily_dst daily) as Hne. fold f in Hne. simpl in Hne.
  split; [exact Hne|].
  pose proof (cases year month day s3_monthly_dst s3_daily_dst overwrite daily
                slack_url s3) as Hcases.
  cbv zeta in Hcases. fold f in Hcases. fold run in Hcases.
  destruct Hcases
    as [(_ & e & _ & Hrun) | [(Ho & _ & Hs & _) |
        (_ & [(e & _ & Hrun) | [(cog & item & e & _ & _ & _ & Hrun) |
                                (cog & item & Hc & Hi & Hrun)]])]].
  - rewrite Hrun in Hret. discriminate Hret.
  - destruct Hfresh as [?|Hnone]; [congruence|].
    rewrite Hnone in Hs. by destruct Hs.
  - rewrite Hrun in Hret. discriminate Hret.
  - rewrite Hrun in Hret. discriminate Hret.
  - exists cog, item. rewrite Hrun. simpl.
    rewrite lookup_insert_ne, !lookup_insert_eq by congruence. done.
Qed.

(** X12. Whatever a run does, it leaves every object but the two of its
    date as it found it, and removes none. *)
Theorem other_objects_untouched
    (year month day s3_monthly_dst s3_daily_dst : string)
    (overwrite daily : bool) (slack_url : option string) (s3 : bucket) :
  let f := set_up_file_strings year month day s3_monthly_dst s3_daily_dst
             daily in
  let run := download_and_cog_chirps year month day s3_monthly_dst
               s3_daily_dst overwrite daily slack_url s3 in
  (∀ k, k ≠ out_data f → k ≠ out_stac f →
        s3_after raster run !! k = s3 !! k) ∧
  (∀ k, is_Some (s3 !! k) → is_Some (s3_after raster run !! k)).
Proof.
  intros f run.
  pose proof (cases year month day s3_monthly_dst s3_daily_dst overwrite daily
                slack_url s3) as Hcases.
  cbv zeta in Hcases. fold f in Hcases. fold run in Hcases.
  destruct Hcases
    as [(_ & e & _ & Hrun) | [(_ & _ & _ & Hrun) |
        (_ & [(e & _ & Hrun) | [(cog & item & e & _ & _ & _ & Hrun) |
                                (cog & item & _ & _ & Hrun)]])]];
    rewrite Hrun; simpl; try done.
  - split.
    + intros k Hd Hs. by rewrite lookup_insert_ne.
    + intros k Hk. rewrite lookup_insert. case_decide; by eauto.
  - split.
    + intros k Hd Hs. by rewrite !lookup_insert_ne.
    + intros k Hk. rewrite !lookup_insert. repeat case_decide; by eauto.
Qed.

(** X13. A run that ends the process ends it with code 1, has tried the
    conversion at most once and has not stored the item. Nothing at all is
    written unless it is the item that could not be serialized or sent: the
    raster is then already in the bucket, and stays there. *)
Theorem failed_run_never_stores_the_item
    (year month day s3_monthly_dst s3_daily_dst : string)
    (overwrite daily : bool) (slack_url : option string) (s3 : bucket)
    (code : Z) :
  let f := set_up_file_strings year month day s3_monthly_dst s3_daily_dst
             daily in
  let run := download_and_cog_chirps year month day s3_monthly_dst
               s3_daily_dst overwrite daily slack_url s3 in
  result_of raster run = Exit code →
  code = 1%Z ∧
  conversions raster (events raster run) ≤ 1 ∧
  (∀ item url, S3Dump raster (StacJson raster item) url ∉ events raster run) ∧
  s3_after raster run !! out_stac f = s3 !! out_stac f ∧
  (s3_after raster run = s3 ∨
   ∃ cog item e,
     cog_translate (in_data f) = Ok cog ∧
     create_stac_item year month day daily f = Ok item ∧
     (json_fault raising item = Some e ∨
      dump_fault raising (out_stac f) = Some e) ∧
     s3_after raster run = <[out_data f := Cog raster cog]> s3 ∧
     events raster run =
     [CogTranslate raster (in_data f);
      S3Dump raster (Cog raster cog) (out_data f)] ++
     match slack_url with
     | Some url =>
         [SlackNotification raster url "Chirps Rainfall Monthly"
            ("Failed to handle " +:+ in_file f +:+ " with error "
             +:+ str_exn e)]
     | None => []
     end).
Proof.
  intros f run Hexit.
  pose proof (out_data_is_not_out_stac year month day s3_monthly_dst
                s3_daily_dst daily) as Hne. fold f in Hne. simpl in Hne.
  assert (∀ item url, S3Dump raster (StacJson raster item) url ∉
                      events raster run) as Hnone.
  { intros item url Hin.
    pose proof (cases year month day s3_monthly_dst s3_daily_dst overwrite
                  daily slack_url s3) as Hcases.
    cbv zeta in Hcases. fold f in Hcases. fold run in Hcases.
    destruct Hcases
      as [(_ & e & _ & Hrun) | [(_ & _ & _ & Hrun) |
          (_ & [(e & _ & Hrun) | [(cog & it & e & _ & _ & _ & Hrun) |
                                  (cog & it & _ & _ & Hrun)]])]];
      rewrite Hrun in Hin, Hexit; try discriminate Hexit;
      apply dump_in_failed in Hin; rewrite ?elem_of_cons, elem_of_nil in Hin;
      repeat destruct Hin as [Hin|Hin]; done. }
  pose proof (cases year month day s3_monthly_dst s3_daily_dst overwrite daily
                slack_url s3) as Hcases.
  cbv zeta in Hcases. fold f in Hcases. fold run in Hcases.
  destruct Hcases
    as [(_ & e & _ & Hrun) | [(_ & _ & _ & Hrun) |
        (_ & [(e & _ & Hrun) | [(cog & item & e & Hc & Hi & He & Hrun) |
                                (cog & item & _ & _ & Hrun)]])]];
    rewrite Hrun in Hexit; try discriminate Hexit;
    injection Hexit as <-; (split; [done|]);
    (split; [rewrite Hrun; unfold failed; simpl; destruct slack_url;
             vm_compute; lia|]);
    (split; [exact Hnone|]); rewrite Hrun; unfold failed; simpl.
  - split; [done | by left].
  - split; [done | by left].
  - split; [by rewrite lookup_insert_ne|]. right. exists cog, item, e. done.
Qed.

(** X14. Slashes at the end of the two destinations change nothing: the
    keys are built from the destinations without them. *)
Theorem trailing_slashes_are_dropped
    (year month day s3_monthly_dst s3_daily_dst : string)
    (overwrite daily : bool) (slack_url : option string) (s3 : bucket) :
  set_up_file_strings year month day (s3_monthly_dst +:+ "/")
    (s3_daily_dst +:+ "/") daily
  = set_up_file_strings year month day s3_monthly_dst s3_daily_dst daily ∧
  download_and_cog_chirps year month day (s3_monthly_dst +:+ "/")
    (s3_daily_dst +:+ "/") overwrite daily slack_url s3
  = download_and_cog_chirps year month day s3_monthly_dst s3_daily_dst
      overwrite daily slack_url s3 ∧
  ends_with_slash (rstrip_slash s3_monthly_dst) = false ∧
  ends_with_slash (rstrip_slash s3_daily_dst) = false.
Proof.
  assert (set_up_file_strings year month day (s3_monthly_dst +:+ "/")
            (s3_daily_dst +:+ "/") daily
          = set_up_file_strings year month day s3_monthly_dst s3_daily_dst daily)
    as Hsame.
  { unfold set_up_file_strings. by rewrite !rstrip_slash_snoc. }
  split; [exact Hsame|]. split; [|split; apply rstrip_slash_end].
  unfold Chirps.download_and_cog_chirps. by rewrite Hsame.
Qed.

(** X15. With [overwrite] set the bucket is not consulted: the conversion
    is made once whatever the bucket holds, and the events and the outcome
    of the run are the same for every bucket. *)
Theorem overwrite_always_converts
    (year month day s3_monthly_dst s3_daily_dst : string) (daily : bool)
    (slack_url : option string) (s3 s3' : bucket) :
  let run_from := download_and_cog_chirps year month day s3_monthly_dst
                    s3_daily_dst true daily slack_url in
  conversions raster (events raster (run_from s3)) = 1 ∧
  events raster (run_from s3') = events raster (run_from s3) ∧
  result_of raster (run_from s3') = result_of raster (run_from s3).
Proof.
  intros run_from. subst run_from. unfold Chirps.download_and_cog_chirps.
  unfold already_there. simpl.
  destruct (cog_translate _) as [cog|e]; simpl.
  2: { unfold failed; simpl. by destruct slack_url. }
  destruct (item_for _ _ _ _ _ _ _ _) as [item|e]; simpl.
  2: { unfold failed; simpl. by destruct slack_url. }
  destruct (raise_if (dump_fault raising _)) as [u|e]; simpl.
  2: { unfold failed; simpl. by destruct slack_url. }
  destruct (dump_item _ _ _) as [u'|e]; simpl; [done|].
  unfold failed; simpl. by destruct slack_url.
Qed.
End chirps_extra.

Section chirps_item.
Import PyStr Chirps.

Variable raster : Type.
Variable odc_uuid : string → string → list string → string.

Lemma datetime_ok (y m d : Z) :
  (∃ dt, datetime y m d = Ok dt) ↔
  (1 ≤ y ≤ 9999 ∧ 1 ≤ m ≤ 12 ∧ 1 ≤ d ≤ mdays y m)%Z.
Proof.
  unfold datetime.
  destruct ((1 <=? y) && (y <=? 9999) && (1 <=? m) && (m <=? 12)
            && (1 <=? d) && (d <=? mdays y m))%Z eqn:H.
  - rewrite !andb_true_iff, !Z.leb_le in H. split; [lia | by eexists].
  - rewrite !andb_false_iff, !Z.leb_gt in H. split; [by intros [? ?] | lia].
Qed.

Lemma monthrange_ok (y m : Z) :
  (∃ last, monthrange y m = Ok last) ↔ (1 ≤ m ≤ 12)%Z.
Proof.
  unfold monthrange. destruct ((1 <=? m) && (m <=? 12))%Z eqn:H.
  - rewrite !andb_true_iff, !Z.leb_le in H. split; [lia | by eexists].
  - rewrite !andb_false_iff, !Z.leb_gt in H. split; [by intros [? ?] | lia].
Qed.

Lemma mdays_bounds (y m : Z) : (28 ≤ mdays y m ≤ 31)%Z.
Proof. unfold mdays. repeat case_match; lia. Qed.

(** X16. The item of a month can be made exactly when the year reads as a
    number from 1 to 9999 and the month as a number from 1 to 12; the item
    of a day, when in addition the day reads as a day of that month, leap
    years counted. *)
Theorem item_needs_a_calendar_date (now year month day : string)
    (f : file_strings) :
  ((∃ item, create_stac_item odc_uuid now year month day false f = Ok item) ↔
   ∃ y m, int year = Ok y ∧ int month = Ok m ∧
          (1 ≤ y ≤ 9999 ∧ 1 ≤ m ≤ 12)%Z) ∧
  ((∃ item, create_stac_item odc_uuid now year month day true f = Ok item) ↔
   ∃ y m d, int year = Ok y ∧ int month = Ok m ∧ int day = Ok d ∧
            (1 ≤ y ≤ 9999 ∧ 1 ≤ m ≤ 12 ∧ 1 ≤ d ≤ mdays y m)%Z).
Proof.
  unfold create_stac_item. split.
  - destruct (int year) as [y|]; simpl.
    2: { split; [by intros [? ?] | by intros (? & ? & ? & _)]. }
    destruct (int month) as [m|]; simpl.
    2: { split; [by intros [? ?] | by intros (? & ? & _ & ? & _)]. }
    pose proof (monthrange_ok y m) as Hrange.
    pose proof (datetime_ok y m 15) as Hdate.
    pose proof (mdays_bounds y m) as Hdays.
    destruct (monthrange y m) as [last|]; simpl.
    + destruct (datetime y m 15) as [dt|]; simpl.
      * split; [intros _ | by eexists].
        exists y, m. destruct Hdate as [Hdate _].
        destruct Hdate as (? & ? & ?); [by eexists|]. repeat split; auto; lia.
      * split; [by intros [? ?]|]. intros (y' & m' & [= <-] & [= <-] & Hy & Hm).
        destruct Hdate as [_ [? Hdate]]; [lia | done].
    + split; [by intros [? ?]|]. intros (y' & m' & [= <-] & [= <-] & Hy & Hm).
      destruct Hrange as [_ [? Hrange]]; [lia | done].
  - destruct (int year) as [y|]; simpl.
    2: { split; [by intros [? ?] | by intros (? & ? & ? & ? & _)]. }
    destruct (int month) as [m|]; simpl.
    2: { split; [by intros [? ?] | by intros (? & ? & ? & _ & ? & _)]. }
    destruct (int day) as [d|]; simpl.
    2: { split; [by intros [? ?] | by intros (? & ? & ? & _ & _ & ? & _)]. }
    pose proof (datetime_ok y m d) as Hdate.
    destruct (datetime y m d) as [dt|]; simpl.
    + split; [intros _ | by eexists].
      exists y, m, d. destruct Hdate as [Hdate _].
      destruct Hdate as (? & ? & ?); [by eexists|]. repeat split; auto; lia.
    + split; [by intros [? ?]|].
      intros (y' & m' & d' & [= <-] & [= <-] & [= <-] & Hy & Hm & Hd).
      destruct Hdate as [_ [? Hdate]]; [lia | done].
Qed.

Lemma create_stac_item_links now year month day daily f item :
  create_stac_item odc_uuid now year month day daily f = Ok item →
  self_href item = out_stac f ∧ rainfall_href item = out_data f ∧
  derived_from item = in_href f.
Proof.
  unfold create_stac_item. destruct daily.
  - destruct (int year) as [y|]; simpl; [|done].
    destruct (int month) as [m|]; simpl; [|done].
    destruct (int day) as [d|]; simpl; [|done].
    destruct (datetime y m d) as [dt|]; simpl; [|done].
    by intros [= <-].
  - destruct (int year) as [y|]; simpl; [|done].
    destruct (int month) as [m|]; simpl; [|done].
    destruct (monthrange y m) as [last|]; simpl; [|done].
    destruct (datetime y m 15) as [dt|]; simpl; [|done].
    by intros [= <-].
Qed.

(** X17. An item that a run sends to S3 describes that very run: it is
    stored at its own [self_href], the raster was stored just before at the
    address of its rainfall asset, and what was converted is the source it
    says it derives from, read through GDAL's gzip and curl layers. *)
Theorem item_describes_its_run
    (cog_translate : string → result raster) (str_exn : exn → string)
    (now : string) (raising : faults)
    (year month day s3_monthly_dst s3_daily_dst : string)
    (overwrite daily : bool) (slack_url : option string)
    (s3 : gmap string (s3_object raster)) (item : stac_item) (url : string) :
  let run := download_and_cog_chirps raster cog_translate odc_uuid str_exn now
               raising year month day s3_monthly_dst s3_daily_dst overwrite
               daily slack_url s3 in
  S3Dump raster (StacJson raster item) url ∈ events raster run →
  url = self_href item ∧
  ∃ cog,
    events raster run =
    [CogTranslate raster ("/vsigzip//vsicurl/" +:+ derived_from item);
     S3Dump raster (Cog raster cog) (rainfall_href item);
     S3Dump raster (StacJson raster item) (self_href item)] ∧
    s3_after raster run !! self_href item = Some (StacJson raster item).
Proof.
  intros run Hin.
  destruct (dumped_item _ _ _ _ _ _ _ _ _ _ _ _ _ _ _ _ _ Hin) as [Hitem ->].
  destruct (create_stac_item_links _ _ _ _ _ _ _ Hitem) as (Hself & Hrain & Hsrc).
  split; [done|].
  set (f := set_up_file_strings year month day s3_monthly_dst s3_daily_dst
              daily) in *.
  assert (in_data f = "/vsigzip//vsicurl/" +:+ in_href f) as Hdata
    by (subst f; by destruct daily).
  pose proof (download_and_cog_chirps_cases raster odc_uuid cog_translate
                str_exn now raising year month day s3_monthly_dst s3_daily_dst
                overwrite daily slack_url s3) as Hcases.
  cbv zeta in Hcases. fold f in Hcases. fold run in Hcases.
  destruct Hcases
    as [(_ & e & _ & Hrun) | [(_ & _ & _ & Hrun) |
        (_ & [(e & _ & Hrun) | [(cog & it & e & _ & _ & _ & Hrun) |
                                (cog & it & _ & Hit & Hrun)]])]];
    rewrite Hrun in Hin |- *.
  - by apply dump_in_failed, elem_of_nil in Hin.
  - by apply elem_of_nil in Hin.
  - apply dump_in_failed, list_elem_of_singleton in Hin. discriminate Hin.
  - apply dump_in_failed in Hin. rewrite !elem_of_cons, elem_of_nil in Hin.
    destruct Hin as [H|[H|[]]]; discriminate H.
  - assert (it = item) as -> by congruence.
    exists cog. simpl.
    rewrite Hself, Hrain, Hsrc, Hdata, lookup_insert_eq. done.
Qed.
End chirps_item.

Section both_sides.
Import PyStr Landsat Keys.

Lemma append_assoc (a b c : string) : (a +:+ b) +:+ c = a +:+ (b +:+ c).
Proof.
  induction a as [|x a IH]; [done|].
  change (String x ((a +:+ b) +:+ c) = String x (a +:+ (b +:+ c))).
  by rewrite IH.
Qed.

Lemma ends_with_slash_split (k : string) :
  ends_with_slash k = true → ∃ d, k = d +:+ "/".
Proof.
  induction k as [|c k IH]; [done|]. simpl.
  destruct k as [|c' k].
  - intros ->%Ascii.eqb_eq. by exists "".
  - intros (d & ->)%IH. by exists (String c d).
Qed.

(** X18. The two sides name a scene alike: when the inventory lists an
    object directly under the key that [build_path] gives a row of the
    bulk file, that key is among the observed keys, so that the scene is
    not reported as missing. *)
Theorem listed_scene_is_observed
    (convert_str_to_date : option string → result date)
    (list_inventory : string → string → string → string → list string)
    (landsat product : string) (r : row) (key name : string)
    (expected : gset string) :
  sat_prefix landsat = Some product →
  build_path convert_str_to_date r = Ok key →
  no_slash name = true →
  (key +:+ name) ∈ list_inventory LANDSAT_INVENTORY_PATH "collection02"
                     "_stac.json" product →
  ∃ observed,
    get_and_filter_keys list_inventory landsat = Ok observed ∧
    key ∈ observed ∧ key ∉ expected ∖ observed.
Proof.
  intros Hp Hkey Hname Hin. unfold get_and_filter_keys. rewrite Hp.
  eexists. split; [done|].
  assert (key ∈ (list_to_set
                   ((λ k, rsplit_slash_head k +:+ "/") <$>
                    list_inventory LANDSAT_INVENTORY_PATH "collection02"
                      "_stac.json" product) : gset string)) as Hobs.
  { apply elem_of_list_to_set, list_elem_of_fmap. exists (key +:+ name).
    split; [|done].
    destruct (build_path_shape _ _ _ Hkey) as [_ Hend].
    apply ends_with_slash_split in Hend as [d ->].
    by rewrite append_assoc, rsplit_slash_head_join. }
  split; [exact Hobs|]. rewrite elem_of_difference. tauto.
Qed.
End both_sides.

Section whole_run.
Import PyStr Landsat.

(** X19. When the satellite is not supported or the bulk file cannot be
    read to its end, the function raises without having sent anything: no
    report is made from a part of the file. *)
Theorem unreadable_inputs_send_nothing
    (url_div : string → string → string) (dedent : string → string)
    (bucket_name satellite_name date_string : string) (update_stac : bool)
    (notification_url : option string)
    (convert_str_to_date : option string → result date)
    (africa_pathrows : gset Z)
    (list_inventory : string → string → string → string → list string)
    (bulk_rows : list row) :
  raises (get_and_filter_keys list_inventory satellite_name) ∨
  raises (get_and_filter_keys_from_files convert_str_to_date africa_pathrows
            bulk_rows) →
  ∃ e, generate_buckets_diff url_div dedent bucket_name satellite_name
         update_stac notification_url date_string convert_str_to_date
         africa_pathrows list_inventory bulk_rows = ([], Raise e).
Proof.
  intros H. unfold generate_buckets_diff.
  destruct (get_and_filter_keys list_inventory satellite_name) as [dest|e].
  - destruct H as [[e H]|[e H]]; [done|]. rewrite H. by eexists.
  - by eexists.
Qed.
End whole_run.

Section extra_instances.
Import PyStr Landsat LandsatCli Chirps Keys Samples.

Lemma observed_keys_are_directories_witness :
  sat_prefix "landsat_8" = Some "LC08" ∧
  ∃ keys, get_and_filter_keys sample_inventory "landsat_8" = Ok keys ∧
          scene_key ∈ keys.
Proof.
  split; [reflexivity|].
  destruct (observed_keys_are_directories sample_inventory "landsat_8" "LC08"
              eq_refl) as (keys & Hkeys & Hspec & _).
  exists keys. split; [exact Hkeys|]. apply Hspec.
  exists (scene_key +:+ scene_stac_name).
  split; [apply list_elem_of_singleton; reflexivity | reflexivity].
Defined.

Lemma expected_keys_shape_witness :
  get_and_filter_keys_from_files sample_date {[3045%Z]} [scene_row; night_row]
  = Ok {[scene_key]} ∧
  String.prefix "collection02/level-2/standard/" scene_key = true ∧
  ends_with_slash scene_key = true.
Proof.
  assert (get_and_filter_keys_from_files sample_date {[3045%Z]}
            [scene_row; night_row] = Ok {[scene_key]}) as Hkeys.
  { vm_compute. reflexivity. }
  split; [exact Hkeys|].
  apply (expected_keys_shape sample_date {[3045%Z]} _ _ Hkeys).
  apply elem_of_singleton. reflexivity.
Defined.

Lemma expected_keys_ignore_order_witness :
  get_and_filter_keys_from_files sample_date {[3045%Z]} [scene_row; night_row]
  = Ok {[scene_key]} ∧
  get_and_filter_keys_from_files sample_date {[3045%Z]}
    [night_row; scene_row; scene_row] = Ok {[scene_key]}.
Proof.
  assert (get_and_filter_keys_from_files sample_date {[3045%Z]}
            [scene_row; night_row] = Ok {[scene_key]}) as Hkeys.
  { vm_compute. reflexivity. }
  split; [exact Hkeys|].
  apply (expected_keys_ignore_order sample_date {[3045%Z]}
           [scene_row; night_row]); [|exact Hkeys].
  intros r. rewrite !elem_of_cons, !elem_of_nil. tauto.
Defined.

Lemma unreadable_grid_cell_raises_witness :
  int (zfill 3 "abc" +:+ zfill 3 "45") = Raise ValueError ∧
  row_filter {[3045%Z]} bad_path_row = Raise ValueError ∧
  raises (get_and_filter_keys_from_files sample_date {[3045%Z]}
            [scene_row; bad_path_row]).
Proof.
  split; [reflexivity|].
  destruct (unreadable_grid_cell_raises sample_date {[3045%Z]} bad_path_row
              "8" "Day" "abc" "45") as [Hrow Hrows];
    try reflexivity; try discriminate.
  { exists ValueError. reflexivity. }
  split; [exact Hrow|]. apply Hrows.
  apply elem_of_cons. right. apply elem_of_cons. left. reflexivity.
Defined.

Lemma grid_cell_number_witness :
  int "3" = Ok 3%Z ∧ int "45" = Ok 45%Z ∧
  int (zfill 3 "3" +:+ zfill 3 "45") = Ok (1000 * 3 + 45)%Z.
Proof.
  split; [reflexivity|]. split; [reflexivity|].
  apply (grid_cell_number "3" "45" 3 45); try reflexivity. vm_compute. lia.
Defined.

Lemma notification_follows_upload_witness :
  ∃ data target text,
    (emit_report join id "deafrica-landsat-dev" "landsat_8" false
       (Some "https://hooks.example/T0") "2021-03-04"
       (SceneList (replicate 201 "s3://usgs-landsat/x/")) []).1
    = [Landsat.S3Dump data target;
       Landsat.SlackNotification "https://hooks.example/T0"
         "landsat_8 Gap Report" text].
Proof.
  pose proof (notification_follows_upload join id "deafrica-landsat-dev"
                "landsat_8" "2021-03-04" false (Some "https://hooks.example/T0")
                (SceneList (replicate 201 "s3://usgs-landsat/x/")) []
                "https://hooks.example/T0" "landsat_8 Gap Report"
                (message join id "deafrica-landsat-dev" "landsat_8" false
                   "2021-03-04"
                   (SceneList (replicate 201 "s3://usgs-landsat/x/")) []))
    as H.
  cbv zeta in H.
  destruct H as (_ & _ & _ & _ & (data & target & Hevents) & _).
  { apply list_elem_of_In. right. left. reflexivity. }
  exists data, target. eexists. exact Hevents.
Defined.

Lemma forced_update_report_raises_witness :
  ({["a/"]} : gset string) ≠ ∅ ∧
  report_gaps join id "deafrica-landsat-dev" "landsat_8" true None "2021-03-04"
    {["a/"]} {["b/"]} = ([], Raise TypeError).
Proof.
  assert (({["a/"]} : gset string) ≠ ∅) as Hne.
  { intros H. apply (f_equal size) in H. vm_compute in H. discriminate H. }
  split; [exact Hne|].
  apply (forced_update_report_raises join id "deafrica-landsat-dev" "landsat_8"
           "2021-03-04" None {["a/"]} {["b/"]} Hne).
Defined.

Lemma completed_run_stores_both_witness :
  ∃ cog item,
    s3_after string
      (download_and_cog_chirps string sample_cog sample_uuid sample_str
         "2021-06-01T00:00:00Z" no_faults "2020" "01" "01"
         "s3://rainfall/monthly/" "s3://rainfall/daily/" false false None ∅)
      !! "s3://rainfall/monthly/chirps-v2.0_2020.01.tif"
    = Some (Cog string cog) ∧
    s3_after string
      (download_and_cog_chirps string sample_cog sample_uuid sample_str
         "2021-06-01T00:00:00Z" no_faults "2020" "01" "01"
         "s3://rainfall/monthly/" "s3://rainfall/daily/" false false None ∅)
      !! "s3://rainfall/monthly/chirps-v2.0_2020.01.stac-item.json"
    = Some (StacJson string item).
Proof.
  pose proof (completed_run_stores_both string sample_cog sample_uuid
                sample_str "2021-06-01T00:00:00Z" no_faults "2020" "01" "01"
                "s3://rainfall/monthly/" "s3://rainfall/daily/" false false
                None ∅) as H.
  cbv zeta in H.
  destruct H as (_ & cog & item & _ & _ & Hdata & Hstac).
  { right. reflexivity. }
  { vm_compute. reflexivity. }
  exists cog, item. split; [exact Hdata | exact Hstac].
Defined.

Lemma failed_run_never_stores_the_item_witness :
  result_of string
    (download_and_cog_chirps string sample_cog sample_uuid sample_str
       "2021-06-01T00:00:00Z" item_dump_fails "2020" "01" "01"
       "s3://rainfall/monthly/" "s3://rainfall/daily/" false false None ∅)
  = Exit 1 ∧
  s3_after string
    (download_and_cog_chirps string sample_cog sample_uuid sample_str
       "2021-06-01T00:00:00Z" item_dump_fails "2020" "01" "01"
       "s3://rainfall/monthly/" "s3://rainfall/daily/" false false None ∅)
    !! "s3://rainfall/monthly/chirps-v2.0_2020.01.stac-item.json" = None ∧
  s3_after string
    (download_and_cog_chirps string sample_cog sample_uuid sample_str
       "2021-06-01T00:00:00Z" item_dump_fails "2020" "01" "01"
       "s3://rainfall/monthly/" "s3://rainfall/daily/" false false None ∅)
    !! "s3://rainfall/monthly/chirps-v2.0_2020.01.tif" ≠ None.
Proof.
  assert (result_of string
            (download_and_cog_chirps string sample_cog sample_uuid sample_str
               "2021-06-01T00:00:00Z" item_dump_fails "2020" "01" "01"
               "s3://rainfall/monthly/" "s3://rainfall/daily/" false false
               None ∅) = Exit 1) as Hexit.
  { vm_compute. reflexivity. }
  split; [exact Hexit|].
  pose proof (failed_run_never_stores_the_item string sample_cog sample_uuid
                sample_str "2021-06-01T00:00:00Z" item_dump_fails "2020" "01"
                "01" "s3://rainfall/monthly/" "s3://rainfall/daily/" false
                false None ∅ 1%Z) as H.
  cbv zeta in H. destruct (H Hexit) as (_ & _ & _ & Hstac & _).
  split; [exact Hstac|]. vm_compute. discriminate.
Defined.

Lemma item_describes_its_run_witness :
  "s3://rainfall/monthly/chirps-v2.0_2020.01.stac-item.json"
  = self_href (january_item "2021-06-01T00:00:00Z" "s3://rainfall/monthly").
Proof.
  pose proof (item_describes_its_run string sample_uuid sample_cog sample_str
                "2021-06-01T00:00:00Z" no_faults "2020" "01" "01"
                "s3://rainfall/monthly/" "s3://rainfall/daily/" false false
                None ∅
                (january_item "2021-06-01T00:00:00Z" "s3://rainfall/monthly")
                "s3://rainfall/monthly/chirps-v2.0_2020.01.stac-item.json")
    as H.
  cbv zeta in H. destruct H as [Hurl _]; [|exact Hurl].
  apply list_elem_of_In. vm_compute. do 2 right. left. reflexivity.
Defined.

Lemma unreadable_inputs_send_nothing_witness :
  ∃ e, generate_buckets_diff join id "deafrica-landsat-dev" "landsat_8" false
         (Some "https://hooks.example/T0") "2021-03-04" sample_date {[3045%Z]}
         sample_inventory [scene_row; bad_path_row] = ([], Raise e).
Proof.
  apply (unreadable_inputs_send_nothing join id "deafrica-landsat-dev"
           "landsat_8" "2021-03-04" false (Some "https://hooks.example/T0")
           sample_date {[3045%Z]} sample_inventory [scene_row; bad_path_row]).
  right. exists ValueError. vm_compute. reflexivity.
Defined.

Lemma listed_scene_is_observed_witness :
  build_path sample_date scene_row = Ok scene_key ∧
  ∃ observed,
    get_and_filter_keys sample_inventory "landsat_8" = Ok observed ∧
    scene_key ∈ observed ∧ scene_key ∉ ({[scene_key]} : gset string) ∖ observed.
Proof.
  split; [reflexivity|].
  apply (listed_scene_is_observed sample_date sample_inventory "landsat_8"
           "LC08" scene_row scene_key scene_stac_name {[scene_key]});
    try reflexivity.
  apply list_elem_of_singleton. reflexivity.
Defined.
End extra_instances.
